(* Shallow embedding of neqo-transport/src/packet2.rs: the QUIC packet
   builder (short and long headers, packet number, length field, payload
   protection and header protection), and the Retry and Version
   Negotiation constructors.

   Bytes are Z values; buffers are lists of bytes indexed with stdpp's list
   lookup and insert.  Rust panics (index out of range, failed assertions,
   usize underflow in a debug build) are the [Panic] case of [outcome]. *)

From Stdlib Require Import ZArith Lia.
From stdpp Require Import base list.

Open Scope Z_scope.

(* ------------------------------------------------------------------ *)
(** * Panicking computations *)

Inductive outcome (A : Type) : Type :=
| Done (a : A)
| Panic.
Arguments Done {A} a.
Arguments Panic {A}.

#[global] Instance outcome_ret : MRet outcome := fun A a => Done a.
#[global] Instance outcome_bind : MBind outcome :=
  fun A B f m => match m with Done a => f a | Panic => Panic end.

(** Rust's [Result<T, E>]. *)
Inductive res (A E : Type) : Type :=
| Ok (a : A)
| Err (e : E).
Arguments Ok {A E} a.
Arguments Err {A E} e.

(** [v[i]] on a slice or [Vec]: panics out of range. *)
Definition byte_at (l : list Z) (i : nat) : outcome Z :=
  match l !! i with Some x => Done x | None => Panic end.

(** [v[i] = x]: panics out of range. *)
Definition set_at (l : list Z) (i : nat) (x : Z) : outcome (list Z) :=
  if decide (i < length l)%nat then Done (<[i:=x]> l) else Panic.

(** [&v[a..b]]: panics unless [a <= b <= len]. *)
Definition slice (l : list Z) (a b : nat) : outcome (list Z) :=
  if decide (a <= b <= length l)%nat then Done (take (b - a) (drop a l))
  else Panic.

(** [&v[a..]]: panics unless [a <= len]. *)
Definition slice_from (l : list Z) (a : nat) : outcome (list Z) :=
  if decide (a <= length l)%nat then Done (drop a l) else Panic.

(** [a - b] on usize (debug build: underflow panics). *)
Definition sub_usize (a b : nat) : outcome nat :=
  if decide (b <= a)%nat then Done (a - b)%nat else Panic.

(** [Range<usize>::len()]. *)
Definition range_len (r : nat * nat) : nat := (r.2 - r.1)%nat.

(* ------------------------------------------------------------------ *)
(** * The encoder *)

(** Modelled from the spec: [neqo_common::Encoder] (not in src/), a
    growable byte buffer; "all multi-byte integers big-endian". *)
Abbreviation Encoder := (list Z) (only parsing).

(** Modelled from the spec: [Encoder::encode_byte]. *)
Definition encode_byte (e : Encoder) (b : Z) : Encoder := e ++ [b].

(** Modelled from the spec: [Encoder::encode], appends raw bytes. *)
Definition encode (e : Encoder) (v : list Z) : Encoder := e ++ v.

(** Modelled from the spec: the [n]-byte big-endian form of [v], high
    byte first (bits above [8 n] are dropped). *)
Fixpoint be_bytes (n : nat) (v : Z) : list Z :=
  match n with
  | O => []
  | S k => Z.land (Z.shiftr v (8 * Z.of_nat k)) 255 :: be_bytes k v
  end.

(** The value a receiver reads from a big-endian byte string. *)
Definition be_value (l : list Z) : Z :=
  fold_left (fun acc x => acc * 256 + x) l 0.

(** Modelled from the spec: [Encoder::encode_uint(n, v)]. *)
Definition encode_uint (e : Encoder) (n : nat) (v : Z) : Encoder :=
  e ++ be_bytes n v.

(** Modelled from the spec: [Encoder::encode_vec(1, v)], a field with a
    1-byte length prefix. *)
Definition encode_vec1 (e : Encoder) (v : list Z) : Encoder :=
  encode (encode_uint e 1 (Z.of_nat (length v))) v.

(** Modelled from the spec: [Encoder::encode_varint], the QUIC
    variable-length integer (1, 2, 4 or 8 bytes, tagged in the top two
    bits). *)
Definition encode_varint (e : Encoder) (v : Z) : Encoder :=
  if v <? 2 ^ 6 then encode_uint e 1 v
  else if v <? 2 ^ 14 then encode_uint e 2 (Z.lor v (2 ^ 14))
  else if v <? 2 ^ 30 then encode_uint e 4 (Z.lor v (2 * 2 ^ 30))
  else encode_uint e 8 (Z.lor v (3 * 2 ^ 62)).

(** Modelled from the spec: [Encoder::encode_vvec], a field with a
    variable-length-integer length prefix. *)
Definition encode_vvec (e : Encoder) (v : list Z) : Encoder :=
  encode (encode_varint e (Z.of_nat (length v))) v.

(** Modelled from the spec: [QUIC_VERSION] (crate root, not in src/), the
    protocol's current version; the value is the one in this file's test
    vectors (draft-24). *)
Definition QUIC_VERSION : Z := 0xff000018.

(* ------------------------------------------------------------------ *)
(** * Constants and packet types *)

Definition PACKET_TYPE_INITIAL : Z := 0x0.
Definition PACKET_TYPE_0RTT : Z := 0x01.
Definition PACKET_TYPE_HANDSHAKE : Z := 0x2.
Definition PACKET_TYPE_RETRY : Z := 0x03.

Definition PACKET_BIT_LONG : Z := 0x80.
Definition PACKET_BIT_SHORT : Z := 0x00.
Definition PACKET_BIT_FIXED_QUIC : Z := 0x40.

Definition SAMPLE_SIZE : nat := 16.

Inductive PacketType :=
| VersionNegotiation
| Initial
| Handshake
| ZeroRtt
| Retry
| Short.

Definition code (pt : PacketType) : outcome Z :=
  match pt with
  | Initial => Done PACKET_TYPE_INITIAL
  | ZeroRtt => Done PACKET_TYPE_0RTT
  | Handshake => Done PACKET_TYPE_HANDSHAKE
  | Retry => Done PACKET_TYPE_RETRY
  | _ => Panic
  end.

(** [u64::max_value()]. *)
Definition u64_max : Z := 2 ^ 64 - 1.

Record PacketBuilderoffsets := {
  first_byte_mask : Z;
  off_len : nat;
  off_pn : nat * nat
}.

Record PacketBuilder := {
  encoder : Encoder;
  pkt_pn : Z;
  header : nat * nat;
  offsets : PacketBuilderoffsets
}.

(* ------------------------------------------------------------------ *)
(** * Starting a packet *)

(** [PacketBuilder::short]. *)
Definition short (e : Encoder) (key_phase : bool) (dcid : list Z)
  : PacketBuilder :=
  let header_start := length e in
  let e1 := encode_byte e
              (Z.lor (Z.lor PACKET_BIT_SHORT PACKET_BIT_FIXED_QUIC)
                     (Z.land (Z.shiftl (if key_phase then 1 else 0) 2) 255)) in
  let e2 := encode e1 dcid in
  {| encoder := e2;
     pkt_pn := u64_max;
     header := (header_start, header_start);
     offsets := {| first_byte_mask := 0x1f; off_pn := (0, 0)%nat;
                   off_len := 0%nat |} |}.

(** [PacketBuilder::long]; [pt.code()] panics for Short and
    VersionNegotiation. *)
Definition long (e : Encoder) (pt : PacketType) (dcid scid : list Z)
  : outcome PacketBuilder :=
  let header_start := length e in
  c ← code pt;
  let e1 := encode_byte e
              (Z.lor (Z.lor PACKET_BIT_LONG PACKET_BIT_FIXED_QUIC)
                     (Z.land (Z.shiftl c 4) 255)) in
  let e2 := encode_uint e1 4 QUIC_VERSION in
  let e3 := encode_vec1 e2 dcid in
  let e4 := encode_vec1 e3 scid in
  Done {| encoder := e4;
          pkt_pn := u64_max;
          header := (header_start, header_start);
          offsets := {| first_byte_mask := 0x0f; off_pn := (0, 0)%nat;
                        off_len := 0%nat |} |}.

(** Replace the encoder of a builder. *)
Definition with_encoder (b : PacketBuilder) (e : Encoder) : PacketBuilder :=
  {| encoder := e; pkt_pn := pkt_pn b; header := header b;
     offsets := offsets b |}.

(** [PacketBuilder::initial_token]; the [debug_assert_eq!] is a panic. *)
Definition initial_token (b : PacketBuilder) (token : list Z)
  : outcome PacketBuilder :=
  x ← byte_at (encoder b) (header b).1;
  if decide (Z.land x 0xb0 = Z.lor PACKET_BIT_LONG
                               (Z.shiftl PACKET_TYPE_INITIAL 4))
  then Done (with_encoder b (encode_vvec (encoder b) token))
  else Panic.

(** Appending payload through [DerefMut] ([builder.encode(..)]). *)
Definition append (b : PacketBuilder) (payload : list Z) : PacketBuilder :=
  with_encoder b (encode (encoder b) payload).

(* ------------------------------------------------------------------ *)
(** * Packet number and length *)

(** [PacketBuilder::pn]. *)
Definition pn (b : PacketBuilder) (v : Z) (pn_len : nat)
  : outcome PacketBuilder :=
  let hs := (header b).1 in
  first ← byte_at (encoder b) hs;
  let '(e1, ol) :=
    if decide (Z.land first 0x80 = PACKET_BIT_LONG)
    then (encode (encoder b) [0; 0], length (encoder b))
    else (encoder b, off_len (offsets b)) in
  if decide (pn_len <= 4 /\ 0 < pn_len)%nat then
    let pn_offset := length e1 in
    let e2 := encode_uint e1 pn_len v in
    let pn_range := (pn_offset, length e2) in
    x ← byte_at e2 hs;
    e3 ← set_at e2 hs (Z.lor x (Z.land (Z.of_nat (pn_len - 1)) 255));
    Done {| encoder := e3;
            pkt_pn := v;
            header := (hs, length e3);
            offsets := {| first_byte_mask := first_byte_mask (offsets b);
                          off_len := ol; off_pn := pn_range |} |}
  else Panic.

(** The two bytes [write_len] stores for a length [len]. *)
Definition len_bytes (len : Z) : Z * Z :=
  (Z.lor 0x40 (Z.land (Z.shiftr len 8) 0x3f), Z.land len 0xff).

(** [PacketBuilder::write_len]. *)
Definition write_len (b : PacketBuilder) (expansion : nat)
  : outcome PacketBuilder :=
  let ol := off_len (offsets b) in
  rest ← sub_usize (length (encoder b)) (ol + 2);
  let len := Z.of_nat (rest + expansion) in
  e1 ← set_at (encoder b) ol (Z.lor 0x40 (Z.land (Z.shiftr len 8) 0x3f));
  e2 ← set_at e1 (ol + 1) (Z.land len 0xff);
  Done (with_encoder b e2).

(* ------------------------------------------------------------------ *)
(** * Header protection *)

(** The loop [for (i, j) in (1..=pn.len()).zip(pn) { enc[j] ^= mask[i] }],
    entered at mask index [i] and buffer index [j] with [n] steps left. *)
Fixpoint mask_pn (e : Encoder) (mask : list Z) (i j n : nat)
  : outcome Encoder :=
  match n with
  | O => Done e
  | S n' =>
      m ← byte_at mask i;
      x ← byte_at e j;
      e' ← set_at e j (Z.lxor x m);
      mask_pn e' mask (S i) (S j) n'
  end.

(** Lines 194-197 of [build]: apply the mask to the first byte and the
    packet number. *)
Definition apply_mask (e : Encoder) (hs : nat) (fbm : Z)
  (pn_range : nat * nat) (mask : list Z) : outcome Encoder :=
  m0 ← byte_at mask 0;
  x ← byte_at e hs;
  e1 ← set_at e hs (Z.lxor x (Z.land m0 fbm));
  mask_pn e1 mask 1 pn_range.1 (range_len pn_range).

(* ------------------------------------------------------------------ *)
(** * Building against a crypto provider *)

Section Provider.

(** The state of a [CryptoDxState] and the error type of its results. *)
Variable CS : Type.
Variable Error : Type.
(** [crypto.expansion()]: the AEAD tag length. *)
Variable expansion : CS -> nat.
(** [crypto.encrypt(pn, hdr, body)]. *)
Variable encrypt : CS -> Z -> list Z -> list Z -> CS * res (list Z) Error.
(** [crypto.compute_mask(sample)]. *)
Variable compute_mask : CS -> list Z -> CS * res (list Z) Error.

(** Lines 186-203 of [build], once the ciphertext is known. *)
Definition build_protect (s1 : CS) (b1 : PacketBuilder) (ct : list Z)
  : outcome (CS * res Encoder Error) :=
  offset ← sub_usize 4 (range_len (off_pn (offsets b1)));
  if decide (offset + SAMPLE_SIZE <= length ct)%nat then
    sample ← slice ct offset (offset + SAMPLE_SIZE);
    match compute_mask s1 sample with
    | (s2, Err err) => Done (s2, Err err)
    | (s2, Ok mask) =>
        e2 ← apply_mask (encoder b1) (header b1).1
               (first_byte_mask (offsets b1)) (off_pn (offsets b1)) mask;
        Done (s2, Ok (encode (take (header b1).2 e2) ct))
    end
  else Panic.

(** Lines 178-182 of [build]: fill in the length, take the header and the
    body. *)
Definition build_prepare (s : CS) (b : PacketBuilder)
  : outcome (PacketBuilder * list Z * list Z) :=
  b1 ← (if decide (0 < off_len (offsets b))%nat
        then write_len b (expansion s) else Done b);
  hdr ← slice (encoder b1) (header b1).1 (header b1).2;
  body ← slice_from (encoder b1) (header b1).2;
  Done (b1, hdr, body).

(** [PacketBuilder::build]. *)
Definition build (s : CS) (b : PacketBuilder)
  : outcome (CS * res Encoder Error) :=
  '(b1, hdr, body) ← build_prepare s b;
  match encrypt s (pkt_pn b1) hdr body with
  | (s1, Err err) => Done (s1, Err err)
  | (s1, Ok ct) => build_protect s1 b1 ct
  end.

End Provider.

(** [PacketBuilder::abort]. *)
Definition abort (b : PacketBuilder) : Encoder :=
  take (header b).1 (encoder b).

(** [PacketBuilder::is_empty]. *)
Definition is_empty (b : PacketBuilder) : bool :=
  Nat.eqb (length (encoder b)) (header b).2.

(* ------------------------------------------------------------------ *)
(** * Retry and Version Negotiation *)

Section RetryAead.

Variable Error : Type.
(** [Error::InternalError]. *)
Variable InternalError : Error.
(** The thread-local [RETRY_AEAD]: [None] when [try_with] cannot access
    it, otherwise its [encrypt(count, aad, input)], whose result is the
    ciphertext followed by the tag (the [?] maps its error into
    [Error]). *)
Variable retry_aead : option (Z -> list Z -> list Z -> res (list Z) Error).

(** [PacketBuilder::retry]; [rnd] is the byte returned by [random(1)]. *)
Definition retry (dcid scid token odcid : list Z) (rnd : Z)
  : res (list Z) Error :=
  let e0 := encode_vec1 [] odcid in
  let start := length e0 in
  let e1 := encode_byte e0
              (Z.lor (Z.lor (Z.lor PACKET_BIT_LONG PACKET_BIT_FIXED_QUIC)
                            (Z.shiftl PACKET_TYPE_RETRY 4))
                     (Z.land rnd 0xf)) in
  let e2 := encode_uint e1 4 QUIC_VERSION in
  let e3 := encode_vec1 e2 dcid in
  let e4 := encode_vec1 e3 scid in
  let e5 := encode e4 token in
  match retry_aead with
  | None => Err InternalError
  | Some aead_encrypt =>
      match aead_encrypt 0 e5 [] with
      | Err err => Err err
      | Ok tag =>
          let complete := encode e5 tag in
          Ok (drop start complete)
      end
  end.

End RetryAead.

(** [PacketBuilder::version_negotiation]; [grease] is the result of
    [random(5)]. *)
Definition version_negotiation (dcid scid grease : list Z)
  : outcome (list Z) :=
  g4 ← byte_at grease 4;
  let e1 := encode_byte [] (Z.lor PACKET_BIT_LONG (Z.land g4 0x7f)) in
  let e2 := encode e1 [0; 0; 0; 0] in
  let e3 := encode_vec1 e2 dcid in
  let e4 := encode_vec1 e3 scid in
  let e5 := encode_uint e4 4 QUIC_VERSION in
  let greased := map (fun g => Z.lor (Z.land g 0xf0) 0x0a) (take 4 grease) in
  Done (encode e5 greased).

(* ------------------------------------------------------------------ *)
(** * Driving a builder *)

(** How a packet is started: [PacketBuilder::short] or
    [PacketBuilder::long]. *)
Inductive Start :=
| StartShort (key_phase : bool) (dcid : list Z)
| StartLong (pt : PacketType) (dcid scid : list Z).

Definition start (e : Encoder) (st : Start) : outcome PacketBuilder :=
  match st with
  | StartShort kp dcid => Done (short e kp dcid)
  | StartLong pt dcid scid => long e pt dcid scid
  end.

(** The calls a caller makes on an open builder. *)
Inductive BuilderOp :=
| OpToken (token : list Z)
| OpPn (v : Z) (pn_len : nat)
| OpAppend (payload : list Z).

Definition run_op (b : PacketBuilder) (op : BuilderOp) : outcome PacketBuilder :=
  match op with
  | OpToken t => initial_token b t
  | OpPn v n => pn b v n
  | OpAppend p => Done (append b p)
  end.

Fixpoint run_ops (b : PacketBuilder) (ops : list BuilderOp)
  : outcome PacketBuilder :=
  match ops with
  | [] => Done b
  | op :: rest => b' ← run_op b op; run_ops b' rest
  end.

(* ------------------------------------------------------------------ *)
(** * Test vectors of the source *)

Definition CLIENT_CID : list Z := [0x83; 0x94; 0xc8; 0xf0; 0x3e; 0x51; 0x57; 0x08].
Definition SERVER_CID : list Z := [0xf0; 0x67; 0xa5; 0x50; 0x2a; 0x42; 0x62; 0xb5].

(** A deterministic provider for tests: the "ciphertext" is the body
    followed by a 16-byte zero tag, the mask is all zero. *)
Definition toy_expansion (_ : unit) : nat := 16.
Definition toy_encrypt (s : unit) (_ : Z) (_ body : list Z)
  : unit * res (list Z) unit := (s, Ok (body ++ repeat 0 16)).
Definition toy_mask (s : unit) (_ : list Z) : unit * res (list Z) unit :=
  (s, Ok [0; 0; 0; 0; 0]).

Definition test_build_two : outcome (list Z * list Z) :=
  b ← long [] Handshake SERVER_CID CLIENT_CID;
  b ← pn b 0 1;
  r ← build unit unit toy_expansion toy_encrypt toy_mask tt
        (append b [0; 0; 0]);
  match r with
  | (_, Err _) => Panic
  | (_, Ok first) =>
      b' ← pn (short first false SERVER_CID) 1 3;
      r' ← build unit unit toy_expansion toy_encrypt toy_mask tt
             (append b' [0]);
      match r' with
      | (_, Err _) => Panic
      | (_, Ok e) => Done (first, e)
      end
  end.

(** The [build_short] test: a short header, a 1-byte packet number and
    three bytes of payload. *)
Definition test_short_builder : PacketBuilder :=
  match pn (short [] true SERVER_CID) 0 1 with
  | Done b => append b [0; 0; 0]
  | Panic => short [] true SERVER_CID
  end.

Definition test_short_packet : list Z :=
  match build unit unit toy_expansion toy_encrypt toy_mask tt
          test_short_builder with
  | Done (_, Ok out) => out
  | _ => []
  end.

Definition test_short_prepared : PacketBuilder * list Z * list Z :=
  match build_prepare unit toy_expansion tt test_short_builder with
  | Done x => x
  | Panic => (test_short_builder, [], [])
  end.

(** The [build_two] test: a Handshake packet, then a short packet
    coalesced after it; and the [build_abort] test. *)
Definition test_two_first : list Z :=
  match test_build_two with Done (a, _) => a | Panic => [] end.

Definition test_two_both : list Z :=
  match test_build_two with Done (_, c) => c | Panic => [] end.

Definition test_two_builder : PacketBuilder :=
  match start test_two_first (StartShort false SERVER_CID) ≫= fun b0 =>
        run_ops b0 [OpPn 1 3; OpAppend [0]] with
  | Done b => b
  | Panic => short [] false []
  end.

Definition test_abort_builder : PacketBuilder :=
  match start [] (StartLong Initial [] SERVER_CID) ≫= fun b0 =>
        run_ops b0 [OpToken []; OpPn 1 2] with
  | Done b => b
  | Panic => short [] false []
  end.

(** A provider whose encryption fails, and the coalesced short packet of
    [build_two] with the earlier packet's bytes replaced by zeros. *)
Definition toy_encrypt_fail (s : unit) (_ : Z) (_ _ : list Z)
  : unit * res (list Z) unit := (s, Err tt).

Definition test_two_builder_zeroed : PacketBuilder :=
  with_encoder test_two_builder
    (repeat 0 (length test_two_first)
     ++ drop (length test_two_first) (encoder test_two_builder)).

(** A provider whose mask has a single byte, and one whose ciphertext is
    the body followed by 20 zero bytes. *)
Definition toy_mask_short (s : unit) (_ : list Z) : unit * res (list Z) unit :=
  (s, Ok [0]).

Definition toy_encrypt_pad (s : unit) (_ : Z) (_ body : list Z)
  : unit * res (list Z) unit := (s, Ok (body ++ repeat 0 20)).

(* ================================================================== *)
(** * Properties *)

Lemma length_be_bytes n v : length (be_bytes n v) = n.
Proof. induction n; simpl; auto. Qed.

Lemma fold_be_bytes n v acc :
  fold_left (fun a x => a * 256 + x) (be_bytes n v) acc
  = acc * 2 ^ (8 * Z.of_nat n) + v mod 2 ^ (8 * Z.of_nat n).
Proof.
  revert acc; induction n as [|k IH]; intros acc; simpl.
  - rewrite Z.mod_1_r. lia.
  - rewrite IH.
    change 255 with (Z.ones 8).
    rewrite Z.land_ones, Z.shiftr_div_pow2 by lia.
    replace (8 * Z.of_nat (S k)) with (8 * Z.of_nat k + 8) by lia.
    rewrite Z.pow_add_r by lia.
    rewrite Z.rem_mul_r by (try apply Z.pow_nonzero; lia).
    ring.
Qed.

(** Reading back [n] big-endian bytes gives [v] modulo [256^n]. *)
Lemma be_value_be_bytes n v :
  be_value (be_bytes n v) = v mod 2 ^ (8 * Z.of_nat n).
Proof. unfold be_value. rewrite fold_be_bytes. lia. Qed.

Lemma greased_low_nibble g : Z.land (Z.lor (Z.land g 0xf0) 0x0a) 0x0f = 0x0a.
Proof.
  rewrite Z.land_lor_distr_l, <- Z.land_assoc.
  change (Z.land 0xf0 0x0f) with 0. rewrite Z.land_0_r. reflexivity.
Qed.

Lemma long_bit_set x : Z.land (Z.lor PACKET_BIT_LONG x) 0x80 = 0x80.
Proof.
  unfold PACKET_BIT_LONG. rewrite Z.land_lor_distr_l.
  change (Z.land 0x80 0x80) with 0x80.
  apply Z.bits_inj'; intros i Hi.
  rewrite Z.lor_spec, Z.land_spec.
  destruct (Z.testbit 0x80 i) eqn:E; [apply orb_true_l|].
  rewrite orb_false_l, andb_false_r. reflexivity.
Qed.

(** C8 *)
(** C8: a Version Negotiation packet is 1 + 4 + (1 + |dcid|) + (1 + |scid|)
    + 4 + 4 bytes long; its first byte has the long-header bit; its version
    field is four zero bytes; the next-to-last 4-byte field reads as
    [QUIC_VERSION]; each byte of the trailing greased version has low
    nibble 0xa. *)
Theorem version_negotiation_layout (dcid scid grease : list Z) :
  length grease = 5%nat ->
  exists out,
    version_negotiation dcid scid grease = Done out /\
    length out = (1 + 4 + (1 + length dcid) + (1 + length scid) + 4 + 4)%nat /\
    (exists b0, out !! 0%nat = Some b0 /\ Z.land b0 0x80 = 0x80) /\
    take 4 (drop 1 out) = [0; 0; 0; 0] /\
    be_value (take 4 (drop (length out - 8) out)) = QUIC_VERSION /\
    length (drop (length out - 4) out) = 4%nat /\
    Forall (fun g => Z.land g 0x0f = 0x0a) (drop (length out - 4) out).
Proof.
  intros Hlen.
  destruct grease as [|g0 [|g1 [|g2 [|g3 [|g4 [|g5 r]]]]]];
    simpl in Hlen; try discriminate.
  set (A := [Z.lor PACKET_BIT_LONG (Z.land g4 0x7f)] ++ [0; 0; 0; 0]
              ++ (be_bytes 1 (Z.of_nat (length dcid)) ++ dcid)
              ++ (be_bytes 1 (Z.of_nat (length scid)) ++ scid)).
  set (G := map (fun g => Z.lor (Z.land g 0xf0) 0x0a) [g0; g1; g2; g3]).
  exists (A ++ be_bytes 4 QUIC_VERSION ++ G).
  assert (HA : length A = (1 + 4 + (1 + length dcid) + (1 + length scid))%nat).
  { unfold A. rewrite !length_app, !length_be_bytes. simpl. lia. }
  assert (Hout : length (A ++ be_bytes 4 QUIC_VERSION ++ G)
                 = (length A + 8)%nat).
  { rewrite !length_app, length_be_bytes. simpl. lia. }
  split.
  { unfold version_negotiation, encode_vec1, encode_uint, encode,
      encode_byte, A, G.
    simpl. rewrite <- !app_assoc. reflexivity. }
  split; [rewrite Hout, HA; lia|].
  split; [exists (Z.lor PACKET_BIT_LONG (Z.land g4 0x7f)); split;
          [reflexivity | apply long_bit_set]|].
  split; [reflexivity|].
  rewrite Hout.
  replace (length A + 8 - 8)%nat with (length A) by lia.
  replace (length A + 8 - 4)%nat with (length (A ++ be_bytes 4 QUIC_VERSION))
    by (rewrite length_app, length_be_bytes; lia).
  rewrite drop_app_length, (app_assoc A), drop_app_length.
  rewrite take_app_length' by (rewrite length_be_bytes; reflexivity).
  split; [rewrite be_value_be_bytes; reflexivity|].
  split; [reflexivity|].
  unfold G; simpl. repeat constructor; apply greased_low_nibble.
Qed.

Lemma version_negotiation_layout_witness :
  length [1; 2; 3; 4; 5] = 5%nat /\
  exists out,
    version_negotiation SERVER_CID CLIENT_CID [1; 2; 3; 4; 5] = Done out /\
    length out = (1 + 4 + (1 + length SERVER_CID) + (1 + length CLIENT_CID)
                  + 4 + 4)%nat /\
    (exists b0, out !! 0%nat = Some b0 /\ Z.land b0 0x80 = 0x80) /\
    take 4 (drop 1 out) = [0; 0; 0; 0] /\
    be_value (take 4 (drop (length out - 8) out)) = QUIC_VERSION /\
    length (drop (length out - 4) out) = 4%nat /\
    Forall (fun g => Z.land g 0x0f = 0x0a) (drop (length out - 4) out).
Proof.
  split; [reflexivity|].
  apply version_negotiation_layout. reflexivity.
Defined.

Lemma be_bytes_1 v : 0 <= v < 256 -> be_bytes 1 v = [v].
Proof.
  intros Hv. simpl. change 255 with (Z.ones 8).
  rewrite Z.shiftr_0_r, Z.land_ones by lia. rewrite Z.mod_small; auto.
Qed.

Lemma retry_first_byte_nibble rnd :
  Z.shiftr (Z.lor (Z.lor (Z.lor PACKET_BIT_LONG PACKET_BIT_FIXED_QUIC)
                         (Z.shiftl PACKET_TYPE_RETRY 4))
                  (Z.land rnd 0xf)) 4 = 0xf.
Proof.
  rewrite Z.shiftr_lor, Z.shiftr_land.
  change (Z.shiftr 0xf 4) with 0. rewrite Z.land_0_r, Z.lor_0_r.
  reflexivity.
Qed.

(** C6 *)
(** C6: a successful [retry] returns the transmitted header only (the
    leading length-prefixed original destination connection ID is cut
    off): a first byte with high nibble 0b1111, the 4-byte version,
    [dcid] and [scid] each after a 1-byte length, the raw token, then the
    16-byte tag the fixed-key protector returns for packet number 0, empty
    plaintext, and the whole buffer built so far (prefix included) as
    associated data. *)
Theorem retry_layout (Error : Type) (InternalError : Error)
  (retry_aead : option (Z -> list Z -> list Z -> res (list Z) Error))
  (dcid scid token odcid : list Z) (rnd : Z) (out : list Z) :
  (length dcid <= 20)%nat -> (length scid <= 20)%nat ->
  (length odcid <= 20)%nat ->
  (forall f c ad t, retry_aead = Some f -> f c ad [] = Ok t ->
                    length t = 16%nat) ->
  retry Error InternalError retry_aead dcid scid token odcid rnd = Ok out ->
  exists f b0 tag,
    retry_aead = Some f /\
    Z.shiftr b0 4 = 0xf /\
    f 0 ([Z.of_nat (length odcid)] ++ odcid ++ [b0]
         ++ be_bytes 4 QUIC_VERSION
         ++ [Z.of_nat (length dcid)] ++ dcid
         ++ [Z.of_nat (length scid)] ++ scid ++ token) [] = Ok tag /\
    length tag = 16%nat /\
    out = [b0] ++ be_bytes 4 QUIC_VERSION
          ++ [Z.of_nat (length dcid)] ++ dcid
          ++ [Z.of_nat (length scid)] ++ scid ++ token ++ tag.
Proof.
  intros Hd Hs Ho Htag Hr.
  unfold retry, encode_vec1, encode_uint, encode, encode_byte in Hr.
  rewrite !be_bytes_1 in Hr by lia.
  destruct retry_aead as [f|]; [|discriminate].
  match type of Hr with
  | context [f 0 ?ad []] => destruct (f 0 ad []) as [tag|err] eqn:Hf
  end; [|discriminate].
  injection Hr as <-.
  eexists f, _, tag. split; [reflexivity|].
  split; [apply retry_first_byte_nibble|].
  split; [rewrite <- Hf; simpl; rewrite <- !app_assoc; reflexivity|].
  split; [eapply Htag; eauto|].
  rewrite <- !app_assoc. simpl. rewrite drop_app_length. reflexivity.
Qed.

Definition test_retry_aead : option (Z -> list Z -> list Z -> res (list Z) unit) :=
  Some (fun _ _ _ => Ok (repeat 7 16)).

Lemma retry_layout_witness :
  exists f b0 tag,
    test_retry_aead = Some f /\
    Z.shiftr b0 4 = 0xf /\
    f 0 ([Z.of_nat (length CLIENT_CID)] ++ CLIENT_CID ++ [b0]
         ++ be_bytes 4 QUIC_VERSION
         ++ [Z.of_nat (length (@nil Z))] ++ []
         ++ [Z.of_nat (length SERVER_CID)] ++ SERVER_CID
         ++ [0x74; 0x6f; 0x6b; 0x65; 0x6e]) [] = Ok tag /\
    length tag = 16%nat /\
    [255; 255; 0; 0; 24; 0; 8; 240; 103; 165; 80; 42; 66; 98; 181; 116;
     111; 107; 101; 110; 7; 7; 7; 7; 7; 7; 7; 7; 7; 7; 7; 7; 7; 7; 7; 7]
    = [b0] ++ be_bytes 4 QUIC_VERSION
          ++ [Z.of_nat (length (@nil Z))] ++ []
          ++ [Z.of_nat (length SERVER_CID)] ++ SERVER_CID
          ++ [0x74; 0x6f; 0x6b; 0x65; 0x6e] ++ tag.
Proof.
  apply (retry_layout unit tt test_retry_aead [] SERVER_CID
           [0x74; 0x6f; 0x6b; 0x65; 0x6e] CLIENT_CID 0xff).
  - simpl; lia.
  - simpl; lia.
  - simpl; lia.
  - intros f c ad t Hf Ht. injection Hf as <-. injection Ht as <-.
    reflexivity.
  - vm_compute. reflexivity.
Defined.

Lemma byte_at_Some l i x : l !! i = Some x -> byte_at l i = Done x.
Proof. intros H. unfold byte_at. rewrite H. reflexivity. Qed.

Lemma set_at_lt l i x : (i < length l)%nat -> set_at l i x = Done (<[i:=x]> l).
Proof. intros H. unfold set_at. rewrite decide_True by exact H. reflexivity. Qed.

Lemma land_255_small x : 0 <= x < 256 -> Z.land x 255 = x.
Proof.
  intros Hx. change 255 with (Z.ones 8). rewrite Z.land_ones by lia.
  apply Z.mod_small. exact Hx.
Qed.

Lemma low_bits_pn_len first k :
  Z.land first 3 = 0 -> 0 <= k < 4 -> Z.land (Z.lor first k) 3 = k.
Proof.
  intros Hf Hk. rewrite Z.land_lor_distr_l, Hf, Z.lor_0_l.
  change 3 with (Z.ones 2). rewrite Z.land_ones by lia.
  apply Z.mod_small. exact Hk.
Qed.

(** C2 *)
(** C2: on a builder whose first byte has clear low bits (no packet number
    yet), [pn v n] with 1 <= n <= 4 appends a zero 2-byte length
    placeholder and records its offset exactly when the first byte has the
    long-header bit, then appends [v] as an [n]-byte big-endian field and
    records its range, ORs [n - 1] into the first byte (so its low bits
    read [n - 1]), moves the header end to the end of the buffer, which is
    the end of the packet number, and stores [v] as the packet number;
    nothing else of the old buffer changes. *)
Theorem pn_spec (b : PacketBuilder) (v : Z) (n : nat) (first : Z) :
  (1 <= n <= 4)%nat ->
  encoder b !! (header b).1 = Some first ->
  Z.land first 3 = 0 ->
  let e := encoder b in
  let long := bool_decide (Z.land first 0x80 = PACKET_BIT_LONG) in
  let pstart := (length e + (if long then 2 else 0))%nat in
  exists b',
    pn b v n = Done b' /\
    off_len (offsets b') = (if long then length e else off_len (offsets b)) /\
    (long = true -> take 2 (drop (length e) (encoder b')) = [0; 0]) /\
    drop pstart (encoder b') = be_bytes n v /\
    be_value (drop pstart (encoder b')) = v mod 2 ^ (8 * Z.of_nat n) /\
    off_pn (offsets b') = (pstart, pstart + n)%nat /\
    length (encoder b') = (pstart + n)%nat /\
    encoder b' !! (header b).1 = Some (Z.lor first (Z.of_nat (n - 1))) /\
    Z.land (Z.lor first (Z.of_nat (n - 1))) 3 = Z.of_nat (n - 1) /\
    (forall i, (i < length e)%nat -> i <> (header b).1 ->
               encoder b' !! i = e !! i) /\
    header b' = ((header b).1, length (encoder b')) /\
    first_byte_mask (offsets b') = first_byte_mask (offsets b) /\
    pkt_pn b' = v.
Proof.
  intros Hn Hf Hlow. cbv zeta.
  assert (Hhs : ((header b).1 < length (encoder b))%nat)
    by (eapply lookup_lt_Some; exact Hf).
  assert (Hk : Z.land (Z.of_nat (n - 1)) 255 = Z.of_nat (n - 1))
    by (apply land_255_small; lia).
  unfold pn. rewrite (byte_at_Some _ _ _ Hf). cbn [mbind outcome_bind].
  destruct (decide (Z.land first 0x80 = PACKET_BIT_LONG)) as [Hl|Hl];
    [rewrite bool_decide_true by exact Hl
    |rewrite bool_decide_false by exact Hl];
    rewrite decide_True by lia; unfold encode, encode_uint;
    rewrite (byte_at_Some _ _ first)
      by (rewrite ?lookup_app_l; rewrite ?length_app; auto; lia);
    cbn [mbind outcome_bind];
    rewrite set_at_lt by (rewrite !length_app; lia);
    cbn [mbind outcome_bind]; rewrite Hk.
  - eexists. split; [reflexivity|]. cbn [encoder offsets off_len off_pn
      header pkt_pn first_byte_mask].
    rewrite !length_insert, !length_app, length_be_bytes. simpl length.
    rewrite !drop_insert_lt by lia.
    rewrite (drop_app_length' _ _ (length (encoder b) + 2))
      by (rewrite ?length_app; simpl; lia).
    split; [reflexivity|].
    split; [intros _; rewrite <- app_assoc, drop_app_length; reflexivity|].
    split; [reflexivity|].
    split; [apply be_value_be_bytes|].
    split; [reflexivity|].
    split; [reflexivity|].
    split; [apply list_lookup_insert_eq; rewrite ?length_app, ?length_be_bytes; simpl; lia|].
    split; [apply low_bits_pn_len; [exact Hlow|lia]|].
    split; [intros i Hi Hne; rewrite list_lookup_insert_ne by congruence;
            rewrite !lookup_app_l by (rewrite ?length_app; simpl; lia);
            reflexivity|].
    split; [f_equal; lia|].
    split; reflexivity.
  - eexists. split; [reflexivity|]. cbn [encoder offsets off_len off_pn
      header pkt_pn first_byte_mask].
    rewrite !length_insert, !length_app, length_be_bytes.
    rewrite !drop_insert_lt by lia.
    rewrite Nat.add_0_r, drop_app_length.
    split; [reflexivity|].
    split; [discriminate|].
    split; [reflexivity|].
    split; [apply be_value_be_bytes|].
    split; [reflexivity|].
    split; [reflexivity|].
    split; [apply list_lookup_insert_eq; rewrite !length_app; lia|].
    split; [apply low_bits_pn_len; [exact Hlow|lia]|].
    split; [intros i Hi Hne; rewrite list_lookup_insert_ne by congruence;
            rewrite !lookup_app_l by (rewrite ?length_app; simpl; lia);
            reflexivity|].
    split; [f_equal; lia|].
    split; reflexivity.
Qed.

Lemma pn_spec_witness :
  (1 <= 2 <= 4)%nat /\
  encoder (short [] false SERVER_CID) !! 0%nat = Some 0x40 /\
  Z.land 0x40 3 = 0 /\
  (let b := short [] false SERVER_CID in
   let e := encoder b in
   let long := bool_decide (Z.land 0x40 0x80 = PACKET_BIT_LONG) in
   let pstart := (length e + (if long then 2 else 0))%nat in
   exists b',
     pn b 1 2 = Done b' /\
     off_len (offsets b') = (if long then length e else off_len (offsets b)) /\
     (long = true -> take 2 (drop (length e) (encoder b')) = [0; 0]) /\
     drop pstart (encoder b') = be_bytes 2 1 /\
     be_value (drop pstart (encoder b')) = 1 mod 2 ^ (8 * Z.of_nat 2) /\
     off_pn (offsets b') = (pstart, pstart + 2)%nat /\
     length (encoder b') = (pstart + 2)%nat /\
     encoder b' !! (header b).1 = Some (Z.lor 0x40 (Z.of_nat (2 - 1))) /\
     Z.land (Z.lor 0x40 (Z.of_nat (2 - 1))) 3 = Z.of_nat (2 - 1) /\
     (forall i, (i < length e)%nat -> i <> (header b).1 ->
                encoder b' !! i = e !! i) /\
     header b' = ((header b).1, length (encoder b')) /\
     first_byte_mask (offsets b') = first_byte_mask (offsets b) /\
     pkt_pn b' = 1).
Proof.
  split; [lia|]. split; [reflexivity|]. split; [reflexivity|].
  exact (pn_spec (short [] false SERVER_CID) 1 2 0x40
           ltac:(lia) eq_refl eq_refl).
Defined.

Lemma len_field_bytes (L : Z) :
  let B0 := Z.lor 0x40 (Z.land (Z.shiftr L 8) 0x3f) in
  let B1 := Z.land L 0xff in
  (0 <= B0 < 256 /\ Z.shiftr B0 6 = 1) /\ (0 <= B1 < 256) /\
  Z.land B0 0x3f * 256 + B1 = L mod 2 ^ 14.
Proof.
  cbv zeta.
  assert (Hs : Z.shiftr (Z.lor 0x40 (Z.land (Z.shiftr L 8) 0x3f)) 6 = 1).
  { rewrite Z.shiftr_lor, Z.shiftr_land.
    change (Z.shiftr 0x3f 6) with 0. rewrite Z.land_0_r. reflexivity. }
  assert (Hn : 0 <= Z.lor 0x40 (Z.land (Z.shiftr L 8) 0x3f)).
  { apply Z.lor_nonneg. split; [lia|]. apply Z.land_nonneg. lia. }
  split; [split; [|exact Hs]|].
  { rewrite Z.shiftr_div_pow2 in Hs by lia.
    pose proof (Z.div_mod (Z.lor 0x40 (Z.land (Z.shiftr L 8) 0x3f)) (2 ^ 6)
                  ltac:(lia)).
    pose proof (Z.mod_pos_bound (Z.lor 0x40 (Z.land (Z.shiftr L 8) 0x3f))
                  (2 ^ 6) ltac:(lia)).
    rewrite Hs in *. simpl in *. lia. }
  change 0xff with (Z.ones 8). rewrite Z.land_ones by lia.
  split; [apply Z.mod_pos_bound; lia|].
  rewrite Z.land_lor_distr_l, <- Z.land_assoc.
  change (Z.land 0x40 0x3f) with 0. rewrite Z.lor_0_l.
  change (Z.land 0x3f 0x3f) with (Z.ones 6).
  rewrite Z.land_ones, Z.shiftr_div_pow2 by lia.
  change (2 ^ 14) with (2 ^ 8 * 2 ^ 6).
  rewrite Z.rem_mul_r by lia. lia.
Qed.

(** C3 *)
(** C3: with a 2-byte placeholder at [off_len], [write_len expansion]
    succeeds and stores there the bytes [B0; B1] of [L] = bytes after the
    placeholder + expansion: [B0] has top bits 01, and the remaining 14 bits
    [B0 & 0x3f, B1], high byte first, read as [L] modulo 2^14, i.e. exactly
    [L] when [L <= 16383]; nothing else changes. *)
Theorem write_len_encoding (b : PacketBuilder) (expansion : nat) :
  (off_len (offsets b) + 2 <= length (encoder b))%nat ->
  let ol := off_len (offsets b) in
  let L := Z.of_nat (length (encoder b) - (ol + 2) + expansion) in
  exists b' B0 B1,
    write_len b expansion = Done b' /\
    encoder b' !! ol = Some B0 /\ encoder b' !! (ol + 1)%nat = Some B1 /\
    0 <= B0 < 256 /\ Z.shiftr B0 6 = 1 /\ 0 <= B1 < 256 /\
    Z.land B0 0x3f * 256 + B1 = L mod 2 ^ 14 /\
    (L <= 16383 -> Z.land B0 0x3f * 256 + B1 = L) /\
    length (encoder b') = length (encoder b) /\
    (forall i, i <> ol -> i <> (ol + 1)%nat -> encoder b' !! i = encoder b !! i) /\
    header b' = header b /\ offsets b' = offsets b /\ pkt_pn b' = pkt_pn b.
Proof.
  intros Hlen. cbv zeta.
  set (L := Z.of_nat (length (encoder b) - (off_len (offsets b) + 2)
                      + expansion)).
  destruct (len_field_bytes L) as [[HB0 Hs] [HB1 Hv]].
  unfold write_len, sub_usize.
  rewrite decide_True by exact Hlen. cbn [mbind outcome_bind].
  fold L.
  rewrite set_at_lt by lia. cbn [mbind outcome_bind].
  rewrite set_at_lt by (rewrite length_insert; lia).
  cbn [mbind outcome_bind].
  eexists _, _, _. split; [reflexivity|].
  cbn [with_encoder encoder header offsets pkt_pn].
  split.
  { rewrite list_lookup_insert_ne by lia.
    apply list_lookup_insert_eq. lia. }
  split; [apply list_lookup_insert_eq; rewrite length_insert; lia|].
  split; [exact HB0|]. split; [exact Hs|]. split; [exact HB1|].
  split; [exact Hv|].
  split.
  { intros HL. rewrite Hv. apply Z.mod_small. subst L; lia. }
  split; [rewrite !length_insert; reflexivity|].
  split; [intros i H1 H2; rewrite !list_lookup_insert_ne by lia;
          reflexivity|].
  repeat split.
Qed.

Definition write_len_test_builder : PacketBuilder :=
  {| encoder := repeat 0 10; pkt_pn := 0; header := (0, 6)%nat;
     offsets := {| first_byte_mask := 0x0f; off_len := 3%nat;
                   off_pn := (5, 6)%nat |} |}.

Lemma write_len_encoding_witness :
  (off_len (offsets write_len_test_builder) + 2
   <= length (encoder write_len_test_builder))%nat /\
  (let b := write_len_test_builder in
   let ol := off_len (offsets b) in
   let L := Z.of_nat (length (encoder b) - (ol + 2) + 16) in
   exists b' B0 B1,
     write_len b 16 = Done b' /\
     encoder b' !! ol = Some B0 /\ encoder b' !! (ol + 1)%nat = Some B1 /\
     0 <= B0 < 256 /\ Z.shiftr B0 6 = 1 /\ 0 <= B1 < 256 /\
     Z.land B0 0x3f * 256 + B1 = L mod 2 ^ 14 /\
     (L <= 16383 -> Z.land B0 0x3f * 256 + B1 = L) /\
     length (encoder b') = length (encoder b) /\
     (forall i, i <> ol -> i <> (ol + 1)%nat ->
                encoder b' !! i = encoder b !! i) /\
     header b' = header b /\ offsets b' = offsets b /\ pkt_pn b' = pkt_pn b).
Proof.
  split; [vm_compute; lia|].
  apply write_len_encoding. vm_compute. lia.
Defined.

(* ------------------------------------------------------------------ *)
(** ** Inversion of the panicking steps *)

Lemma bind_Done {A B} (m : outcome A) (f : A -> outcome B) (r : B) :
  (m ≫= f) = Done r -> exists a, m = Done a /\ f a = Done r.
Proof. destruct m as [a|]; simpl; [eauto|discriminate]. Qed.

Lemma byte_at_Done l i x : byte_at l i = Done x -> l !! i = Some x.
Proof.
  unfold byte_at. destruct (l !! i); [congruence|discriminate].
Qed.

Lemma set_at_Done l i x l' :
  set_at l i x = Done l' -> (i < length l)%nat /\ l' = <[i:=x]> l.
Proof.
  unfold set_at. destruct (decide _); [|discriminate].
  intros H; injection H as <-. auto.
Qed.

Lemma sub_usize_Done a c r : sub_usize a c = Done r -> (c <= a)%nat /\ r = (a - c)%nat.
Proof.
  unfold sub_usize. destruct (decide _); [|discriminate].
  intros H; injection H as <-. auto.
Qed.

Lemma slice_Done l a c r :
  slice l a c = Done r -> (a <= c <= length l)%nat /\ r = take (c - a) (drop a l).
Proof.
  unfold slice. destruct (decide _); [|discriminate].
  intros H; injection H as <-. auto.
Qed.

Lemma slice_from_Done l a r :
  slice_from l a = Done r -> (a <= length l)%nat /\ r = drop a l.
Proof.
  unfold slice_from. destruct (decide _); [|discriminate].
  intros H; injection H as <-. auto.
Qed.

Ltac invert_steps :=
  repeat match goal with
  | H : (_ ≫= _) = Done _ |- _ =>
      apply bind_Done in H; destruct H as [? [? H]]
  | H : byte_at _ _ = Done _ |- _ => apply byte_at_Done in H
  | H : set_at _ _ _ = Done _ |- _ =>
      apply set_at_Done in H; destruct H as [? H]; subst
  | H : sub_usize _ _ = Done _ |- _ =>
      apply sub_usize_Done in H; destruct H as [? H]; subst
  | H : slice _ _ _ = Done _ |- _ =>
      apply slice_Done in H; destruct H as [? H]; subst
  | H : slice_from _ _ = Done _ |- _ =>
      apply slice_from_Done in H; destruct H as [? H]; subst
  | H : Done _ = Done _ |- _ => injection H as H; subst
  end.

(** The packet-number loop XORs mask byte [i + k] into buffer byte
    [j + k] for [k < n] and leaves every other byte alone. *)
Lemma mask_pn_spec (e mask : list Z) (i j n : nat) (e' : list Z) :
  mask_pn e mask i j n = Done e' ->
  length e' = length e /\
  (forall k, (k < n)%nat -> exists x m, e !! (j + k)%nat = Some x /\
     mask !! (i + k)%nat = Some m /\ e' !! (j + k)%nat = Some (Z.lxor x m)) /\
  (forall idx, ~ (j <= idx < j + n)%nat -> e' !! idx = e !! idx).
Proof.
  revert e i j. induction n as [|n IH]; intros e i j H; simpl in H.
  - injection H as <-. split; [reflexivity|]. split; [intros; lia|].
    intros; reflexivity.
  - invert_steps.
    destruct (IH _ _ _ H) as [Hl [Hx Ho]].
    rewrite length_insert in Hl.
    split; [exact Hl|]. split.
    + intros [|k] Hk.
      * rewrite !Nat.add_0_r. do 2 eexists. split; [eassumption|].
        split; [eassumption|]. rewrite Ho by lia.
        apply list_lookup_insert_eq. assumption.
      * destruct (Hx k ltac:(lia)) as [y [mm [Hy [Hm He']]]].
        rewrite list_lookup_insert_ne in Hy by lia.
        exists y, mm.
        replace (j + S k)%nat with (S j + k)%nat by lia.
        replace (i + S k)%nat with (S i + k)%nat by lia. auto.
    + intros idx Hidx. rewrite Ho by lia.
      apply list_lookup_insert_ne. lia.
Qed.

(** Header protection touches the first byte and the packet-number bytes
    only. *)
Lemma apply_mask_spec (e : list Z) (hs : nat) (fbm : Z) (pnr : nat * nat)
  (mask e2 : list Z) :
  (hs < pnr.1 \/ pnr.2 <= pnr.1)%nat ->
  apply_mask e hs fbm pnr mask = Done e2 ->
  length e2 = length e /\
  (exists x m, e !! hs = Some x /\ mask !! 0%nat = Some m /\
               e2 !! hs = Some (Z.lxor x (Z.land m fbm))) /\
  (forall k, (k < pnr.2 - pnr.1)%nat -> exists x m,
     e !! (pnr.1 + k)%nat = Some x /\ mask !! (S k) = Some m /\
     e2 !! (pnr.1 + k)%nat = Some (Z.lxor x m)) /\
  (forall i, i <> hs -> ~ (pnr.1 <= i < pnr.2)%nat -> e2 !! i = e !! i).
Proof.
  intros Hd H. unfold apply_mask in H. invert_steps.
  destruct (mask_pn_spec _ _ _ _ _ _ H) as [Hl [Hx Ho]].
  unfold range_len in *.
  rewrite length_insert in Hl.
  split; [exact Hl|]. split.
  { do 2 eexists. split; [eassumption|]. split; [eassumption|].
    rewrite Ho by lia. apply list_lookup_insert_eq. assumption. }
  split.
  { intros k Hk. destruct (Hx k Hk) as [y [mm [Hy [Hm He]]]].
    rewrite list_lookup_insert_ne in Hy by lia. eauto. }
  intros i Hi Hr. rewrite Ho by lia. apply list_lookup_insert_ne. lia.
Qed.

Lemma write_len_Done b x b1 :
  write_len b x = Done b1 ->
  header b1 = header b /\ offsets b1 = offsets b /\ pkt_pn b1 = pkt_pn b /\
  length (encoder b1) = length (encoder b) /\
  (forall i, i <> off_len (offsets b) -> i <> S (off_len (offsets b)) ->
             encoder b1 !! i = encoder b !! i).
Proof.
  intros H. unfold write_len in H. invert_steps. cbn.
  split; [reflexivity|]. split; [reflexivity|]. split; [reflexivity|].
  split; [rewrite !length_insert; reflexivity|].
  intros i Hi1 Hi2. rewrite !list_lookup_insert_ne by lia. reflexivity.
Qed.

Section BuildFacts.

Variable CS Error : Type.
Variable expansion : CS -> nat.
Variable encrypt : CS -> Z -> list Z -> list Z -> CS * res (list Z) Error.
Variable compute_mask : CS -> list Z -> CS * res (list Z) Error.

Lemma build_prepare_Done s b b1 hdr body :
  build_prepare CS expansion s b = Done (b1, hdr, body) ->
  header b1 = header b /\ offsets b1 = offsets b /\ pkt_pn b1 = pkt_pn b /\
  length (encoder b1) = length (encoder b) /\
  (off_len (offsets b) = 0%nat -> encoder b1 = encoder b) /\
  (forall i, i <> off_len (offsets b) -> i <> S (off_len (offsets b)) ->
             encoder b1 !! i = encoder b !! i) /\
  ((header b).1 <= (header b).2 <= length (encoder b))%nat /\
  hdr = take ((header b).2 - (header b).1) (drop (header b).1 (encoder b1)) /\
  body = drop (header b).2 (encoder b1).
Proof.
  intros H. unfold build_prepare in H.
  destruct (decide (0 < off_len (offsets b))%nat) as [Hol|Hol].
  - invert_steps.
    match goal with W : write_len _ _ = Done _ |- _ =>
      destruct (write_len_Done _ _ _ W) as [Hh [Ho [Hp [Hl Hf]]]] end.
    rewrite Hh, Hl in *.
    repeat split; auto; lia.
  - invert_steps. repeat split; auto; lia.
Qed.

Lemma build_protect_Ok s1 b1 ct s2 out :
  build_protect CS Error compute_mask s1 b1 ct = Done (s2, Ok out) ->
  exists mask e2,
    (range_len (off_pn (offsets b1)) <= 4)%nat /\
    (4 - range_len (off_pn (offsets b1)) + SAMPLE_SIZE <= length ct)%nat /\
    compute_mask s1
      (take SAMPLE_SIZE (drop (4 - range_len (off_pn (offsets b1))) ct))
      = (s2, Ok mask) /\
    apply_mask (encoder b1) (header b1).1 (first_byte_mask (offsets b1))
      (off_pn (offsets b1)) mask = Done e2 /\
    out = take (header b1).2 e2 ++ ct.
Proof.
  intros H. unfold build_protect in H. invert_steps.
  destruct (decide _) as [Hd|Hd]; [|discriminate].
  invert_steps.
  replace (4 - range_len (off_pn (offsets b1)) + SAMPLE_SIZE
           - (4 - range_len (off_pn (offsets b1))))%nat
    with SAMPLE_SIZE in H by lia.
  destruct (compute_mask _ _) as [s' [mask|err]] eqn:Hm; [|discriminate].
  invert_steps.
  exists mask; eexists. repeat split; eauto.
Qed.

End BuildFacts.

(** C1 *)
(** C1: when [build] succeeds, the header-protection step takes the buffer
    [e1] after the length fill, the ciphertext [ct] of the provider and its
    mask, and produces [e2] where the first header byte is XORed with mask
    byte 0 restricted by [first_byte_mask], each packet-number byte
    [ps + k] (k < pn_len) is XORed with mask byte [k + 1], and every other
    byte is unchanged; the packet is [e2] cut at the header end followed by
    [ct]. *)
Theorem build_header_protection (CS Error : Type) (expansion : CS -> nat)
  (encrypt : CS -> Z -> list Z -> list Z -> CS * res (list Z) Error)
  (compute_mask : CS -> list Z -> CS * res (list Z) Error)
  (s : CS) (b : PacketBuilder) (s2 : CS) (out : list Z) :
  let hs := (header b).1 in
  let ps := (off_pn (offsets b)).1 in
  let pe := (off_pn (offsets b)).2 in
  (hs < ps \/ pe <= ps)%nat ->
  build CS Error expansion encrypt compute_mask s b = Done (s2, Ok out) ->
  exists e1 s1 ct mask e2,
    (off_len (offsets b) = 0%nat -> e1 = encoder b) /\
    (forall i, i <> off_len (offsets b) -> i <> S (off_len (offsets b)) ->
               e1 !! i = encoder b !! i) /\
    encrypt s (pkt_pn b) (take ((header b).2 - hs) (drop hs e1))
      (drop (header b).2 e1) = (s1, Ok ct) /\
    compute_mask s1 (take 16 (drop (4 - (pe - ps)) ct)) = (s2, Ok mask) /\
    length e2 = length e1 /\
    (exists x m, e1 !! hs = Some x /\ mask !! 0%nat = Some m /\
       e2 !! hs = Some (Z.lxor x (Z.land m (first_byte_mask (offsets b))))) /\
    (forall k, (k < pe - ps)%nat -> exists x m,
       e1 !! (ps + k)%nat = Some x /\ mask !! (S k) = Some m /\
       e2 !! (ps + k)%nat = Some (Z.lxor x m)) /\
    (forall i, i <> hs -> ~ (ps <= i < pe)%nat -> e2 !! i = e1 !! i) /\
    out = take (header b).2 e2 ++ ct.
Proof.
  cbv zeta. intros Hd H.
  unfold build in H. apply bind_Done in H. destruct H as [[[b1 hdr] body] [Hp H]].
  destruct (build_prepare_Done _ _ _ _ _ _ _ Hp)
    as [Hh [Ho [Hn [Hl [H0 [Hf [Hr [-> ->]]]]]]]].
  destruct (encrypt _ _ _ _) as [s1 [ct|err]] eqn:He; [|discriminate].
  destruct (build_protect_Ok _ _ _ _ _ _ _ _ H)
    as [mask [e2 [Hrl [Hlen [Hm [Ha ->]]]]]].
  rewrite Hh, Ho in *. rewrite Hn in He.
  destruct (apply_mask_spec _ _ _ _ _ _ Hd Ha) as [Hl2 [Hx0 [Hxk Hoth]]].
  exists (encoder b1), s1, ct, mask, e2.
  unfold range_len in *.
  repeat split; auto.
Qed.

Lemma build_header_protection_witness :
  ((header test_short_builder).1 < (off_pn (offsets test_short_builder)).1
   \/ (off_pn (offsets test_short_builder)).2
       <= (off_pn (offsets test_short_builder)).1)%nat /\
  build unit unit toy_expansion toy_encrypt toy_mask tt test_short_builder
    = Done (tt, Ok test_short_packet) /\
  (let b := test_short_builder in
   let hs := (header b).1 in
   let ps := (off_pn (offsets b)).1 in
   let pe := (off_pn (offsets b)).2 in
   exists e1 s1 ct mask e2,
    (off_len (offsets b) = 0%nat -> e1 = encoder b) /\
    (forall i, i <> off_len (offsets b) -> i <> S (off_len (offsets b)) ->
               e1 !! i = encoder b !! i) /\
    toy_encrypt tt (pkt_pn b) (take ((header b).2 - hs) (drop hs e1))
      (drop (header b).2 e1) = (s1, Ok ct) /\
    toy_mask s1 (take 16 (drop (4 - (pe - ps)) ct)) = (tt, Ok mask) /\
    length e2 = length e1 /\
    (exists x m, e1 !! hs = Some x /\ mask !! 0%nat = Some m /\
       e2 !! hs = Some (Z.lxor x (Z.land m (first_byte_mask (offsets b))))) /\
    (forall k, (k < pe - ps)%nat -> exists x m,
       e1 !! (ps + k)%nat = Some x /\ mask !! (S k) = Some m /\
       e2 !! (ps + k)%nat = Some (Z.lxor x m)) /\
    (forall i, i <> hs -> ~ (ps <= i < pe)%nat -> e2 !! i = e1 !! i) /\
    test_short_packet = take (header b).2 e2 ++ ct).
Proof.
  split; [vm_compute; lia|].
  split; [vm_compute; reflexivity|].
  apply (build_header_protection unit unit toy_expansion toy_encrypt toy_mask
           tt test_short_builder tt test_short_packet);
    [vm_compute; lia | vm_compute; reflexivity].
Defined.

(** C5 *)
(** C5: once the provider has returned the ciphertext [ct], with
    pn_len <= 4 and [offset = 4 - pn_len]: if [ct] is shorter than
    [offset + 16] the assertion panics (no error value is returned);
    otherwise the assertion passes and [build] goes on by handing
    [compute_mask] exactly the 16 bytes of [ct] at [offset]. *)
Theorem build_sample (CS Error : Type) (expansion : CS -> nat)
  (encrypt : CS -> Z -> list Z -> list Z -> CS * res (list Z) Error)
  (compute_mask : CS -> list Z -> CS * res (list Z) Error)
  (s : CS) (b b1 : PacketBuilder) (hdr body : list Z) (s1 : CS)
  (ct : list Z) :
  build_prepare CS expansion s b = Done (b1, hdr, body) ->
  encrypt s (pkt_pn b) hdr body = (s1, Ok ct) ->
  (range_len (off_pn (offsets b)) <= 4)%nat ->
  let offset := (4 - range_len (off_pn (offsets b)))%nat in
  ((length ct < offset + 16)%nat ->
     build CS Error expansion encrypt compute_mask s b = Panic) /\
  ((offset + 16 <= length ct)%nat ->
     length (take 16 (drop offset ct)) = 16%nat /\
     build CS Error expansion encrypt compute_mask s b =
       match compute_mask s1 (take 16 (drop offset ct)) with
       | (s2, Err err) => Done (s2, Err err)
       | (s2, Ok mask) =>
           e2 ← apply_mask (encoder b1) (header b).1
                  (first_byte_mask (offsets b)) (off_pn (offsets b)) mask;
           Done (s2, Ok (take (header b).2 e2 ++ ct))
       end).
Proof.
  intros Hp He Hrl. cbv zeta.
  destruct (build_prepare_Done _ _ _ _ _ _ _ Hp)
    as [Hh [Ho [Hn _]]].
  unfold build. rewrite Hp. cbn [mbind outcome_bind].
  rewrite Hn, He. unfold build_protect, sub_usize.
  rewrite Ho, Hh, decide_True by exact Hrl. cbn [mbind outcome_bind].
  unfold SAMPLE_SIZE.
  split.
  - intros Hs. rewrite decide_False by lia. reflexivity.
  - intros Hs. rewrite decide_True by lia.
    unfold slice. rewrite decide_True by lia. cbn [mbind outcome_bind].
    replace (4 - range_len (off_pn (offsets b)) + 16
             - (4 - range_len (off_pn (offsets b))))%nat with 16%nat by lia.
    split; [rewrite length_take, length_drop; lia|].
    reflexivity.
Qed.

Lemma build_sample_witness :
  build_prepare unit toy_expansion tt test_short_builder
    = Done test_short_prepared /\
  toy_encrypt tt (pkt_pn test_short_builder) test_short_prepared.1.2
    test_short_prepared.2 = (tt, Ok ([0; 0; 0] ++ repeat 0 16)) /\
  (range_len (off_pn (offsets test_short_builder)) <= 4)%nat /\
  (let b := test_short_builder in
   let ct := [0; 0; 0] ++ repeat 0 16 in
   let offset := (4 - range_len (off_pn (offsets b)))%nat in
   ((length ct < offset + 16)%nat ->
      build unit unit toy_expansion toy_encrypt toy_mask tt b = Panic) /\
   ((offset + 16 <= length ct)%nat ->
      length (take 16 (drop offset ct)) = 16%nat /\
      build unit unit toy_expansion toy_encrypt toy_mask tt b =
        match toy_mask tt (take 16 (drop offset ct)) with
        | (s2, Err err) => Done (s2, Err err)
        | (s2, Ok mask) =>
            e2 ← apply_mask (encoder test_short_prepared.1.1) (header b).1
                   (first_byte_mask (offsets b)) (off_pn (offsets b)) mask;
            Done (s2, Ok (take (header b).2 e2 ++ ct))
        end)).
Proof.
  split; [vm_compute; reflexivity|].
  split; [vm_compute; reflexivity|].
  split; [vm_compute; lia|].
  apply (build_sample unit unit toy_expansion toy_encrypt toy_mask tt
           test_short_builder test_short_prepared.1.1 test_short_prepared.1.2
           test_short_prepared.2 tt ([0; 0; 0] ++ repeat 0 16)).
  - vm_compute. reflexivity.
  - vm_compute. reflexivity.
  - vm_compute. lia.
Defined.

(* ------------------------------------------------------------------ *)
(** ** Bytes below the header start *)

(** What every builder started on buffer [e] keeps: [e] as a prefix, the
    header start at [length e] with its first byte present, and every
    offset it will write to at or above the header start. *)
Definition frame_inv (e : Encoder) (b : PacketBuilder) : Prop :=
  take (length e) (encoder b) = e /\
  (header b).1 = length e /\
  (length e < length (encoder b))%nat /\
  ((header b).1 <= (header b).2)%nat /\
  (off_len (offsets b) = 0%nat \/ (length e <= off_len (offsets b))%nat) /\
  ((off_pn (offsets b)).2 <= (off_pn (offsets b)).1 \/
   length e < (off_pn (offsets b)).1)%nat.

Lemma take_app_prefix (e l k : list Z) :
  (length e <= length l)%nat -> take (length e) l = e ->
  take (length e) (l ++ k) = e.
Proof. intros Hl Ht. rewrite take_app_le by exact Hl. exact Ht. Qed.

Lemma encode_vvec_app (e t : list Z) : exists k, encode_vvec e t = e ++ k.
Proof.
  unfold encode_vvec, encode_varint, encode_uint, encode.
  repeat case_match; eexists; rewrite <- app_assoc; reflexivity.
Qed.

Lemma start_frame e st b : start e st = Done b -> frame_inv e b.
Proof.
  destruct st as [kp dcid|pt dcid scid]; simpl.
  - intros H; injection H as <-. unfold frame_inv, short, encode, encode_byte.
    cbn. rewrite <- app_assoc, take_app_length, !length_app. simpl.
    repeat split; auto; lia.
  - unfold long. intros H. invert_steps.
    unfold frame_inv, encode_vec1, encode_uint, encode, encode_byte. cbn.
    rewrite <- !app_assoc, take_app_length, !length_app. simpl.
    repeat split; auto; lia.
Qed.

Lemma run_op_frame e b op b' :
  frame_inv e b -> run_op b op = Done b' -> frame_inv e b'.
Proof.
  intros [Ht [Hs [Hl [Hh [Ho Hp]]]]] H.
  destruct op as [t|v n|p]; simpl in H.
  - unfold initial_token in H. invert_steps.
    destruct (decide _); [|discriminate]. injection H as <-.
    destruct (encode_vvec_app (encoder b) t) as [k ->].
    unfold frame_inv, with_encoder. cbn.
    rewrite take_app_prefix by (auto; lia).
    rewrite !length_app. repeat split; auto; lia.
  - unfold pn in H. invert_steps.
    destruct (decide (Z.land _ 0x80 = PACKET_BIT_LONG));
      (destruct (decide _); [|discriminate]); invert_steps;
      unfold frame_inv, encode_uint, encode in *; cbn;
      rewrite ?length_insert, !length_app;
      rewrite take_insert_ge by lia;
      rewrite !take_app_le by (rewrite ?length_app; lia);
      repeat split; auto; try lia.
  - injection H as <-. unfold frame_inv, append, with_encoder, encode. cbn.
    rewrite take_app_prefix by (auto; lia). rewrite length_app.
    repeat split; auto; lia.
Qed.

Lemma run_ops_frame e ops : forall b b',
  frame_inv e b -> run_ops b ops = Done b' -> frame_inv e b'.
Proof.
  induction ops as [|op ops IH]; simpl; intros b b' Hi H.
  - injection H as <-. exact Hi.
  - apply bind_Done in H. destruct H as [b1 [H1 H2]].
    eapply IH; [eapply run_op_frame|]; eauto.
Qed.

Lemma build_frame (CS Error : Type) (expansion : CS -> nat)
  (encrypt : CS -> Z -> list Z -> list Z -> CS * res (list Z) Error)
  (compute_mask : CS -> list Z -> CS * res (list Z) Error)
  e b s s' out :
  frame_inv e b ->
  build CS Error expansion encrypt compute_mask s b = Done (s', Ok out) ->
  take (length e) out = e.
Proof.
  intros [Ht [Hs [Hl [Hh [Ho Hp]]]]] H.
  unfold build in H. apply bind_Done in H. destruct H as [[[b1 hdr] body] [Hpr H]].
  destruct (build_prepare_Done _ _ _ _ _ _ _ Hpr)
    as [Hh1 [Ho1 [Hn1 [Hl1 [H01 [Hf1 [Hr1 [-> ->]]]]]]]].
  destruct (encrypt _ _ _ _) as [s1 [ct|err]]; [|discriminate].
  destruct (build_protect_Ok _ _ _ _ _ _ _ _ H)
    as [mask [e2 [Hrl [Hlen [Hm [Ha ->]]]]]].
  rewrite Hh1, Ho1 in Ha.
  assert (Hd : ((header b).1 < (off_pn (offsets b)).1 \/
                (off_pn (offsets b)).2 <= (off_pn (offsets b)).1)%nat) by lia.
  destruct (apply_mask_spec _ _ _ _ _ _ Hd Ha) as [Hl2 [_ [_ Hoth]]].
  rewrite Hh1. rewrite take_app_le by (rewrite length_take; lia).
  rewrite take_take, Nat.min_l by lia.
  rewrite <- Ht at 2. apply list_eq. intros i.
  destruct (decide (i < length e)%nat) as [Hi|Hi].
  - rewrite !lookup_take_lt by exact Hi.
    rewrite Hoth by lia.
    destruct Ho as [Ho|Ho]; [rewrite H01 by exact Ho; reflexivity|].
    apply Hf1; lia.
  - rewrite !lookup_take_ge by lia. reflexivity.
Qed.

Lemma start_run_frame e st ops b0 b :
  start e st = Done b0 -> run_ops b0 ops = Done b -> frame_inv e b.
Proof.
  intros H0 H. eapply run_ops_frame; [eapply start_frame|]; eauto.
Qed.

(** C4 *)
(** C4: start a second packet on a buffer [e] holding earlier packets
    (with [short] or [long]), make any successful sequence of
    [initial_token], [pn] and payload appends: the buffer still begins with
    [e], and if [build] then succeeds its output begins with [e] too, so
    the earlier packets are kept byte for byte. *)
Theorem coalesce_prefix (CS Error : Type) (expansion : CS -> nat)
  (encrypt : CS -> Z -> list Z -> list Z -> CS * res (list Z) Error)
  (compute_mask : CS -> list Z -> CS * res (list Z) Error)
  (e : Encoder) (st : Start) (ops : list BuilderOp) (b0 b : PacketBuilder) :
  start e st = Done b0 -> run_ops b0 ops = Done b ->
  take (length e) (encoder b) = e /\
  forall s s' out,
    build CS Error expansion encrypt compute_mask s b = Done (s', Ok out) ->
    take (length e) out = e.
Proof.
  intros H0 H. pose proof (start_run_frame _ _ _ _ _ H0 H) as Hi.
  split; [apply Hi|].
  intros s s' out Hb. eapply build_frame; eauto.
Qed.

Lemma coalesce_prefix_witness :
  start test_two_first (StartShort false SERVER_CID)
    = Done (short test_two_first false SERVER_CID) /\
  run_ops (short test_two_first false SERVER_CID) [OpPn 1 3; OpAppend [0]]
    = Done test_two_builder /\
  build unit unit toy_expansion toy_encrypt toy_mask tt test_two_builder
    = Done (tt, Ok test_two_both) /\
  take (length test_two_first) (encoder test_two_builder) = test_two_first /\
  (forall s s' out,
    build unit unit toy_expansion toy_encrypt toy_mask s test_two_builder
      = Done (s', Ok out) ->
    take (length test_two_first) out = test_two_first).
Proof.
  split; [reflexivity|].
  split; [vm_compute; reflexivity|].
  split; [vm_compute; reflexivity|].
  apply (coalesce_prefix unit unit toy_expansion toy_encrypt toy_mask
           test_two_first (StartShort false SERVER_CID) [OpPn 1 3; OpAppend [0]]
           (short test_two_first false SERVER_CID) test_two_builder);
    vm_compute; reflexivity.
Defined.

(** C7 *)
(** C7: start a packet on buffer [e] with [short] or [long], make any
    successful sequence of [initial_token], [pn] and payload appends, then
    [abort]: the result is [e] itself, cut at the header start, which is
    [length e]. *)
Theorem abort_restores (e : Encoder) (st : Start) (ops : list BuilderOp)
  (b0 b : PacketBuilder) :
  start e st = Done b0 -> run_ops b0 ops = Done b ->
  (header b).1 = length e /\ abort b = e.
Proof.
  intros H0 H. destruct (start_run_frame _ _ _ _ _ H0 H) as [Ht [Hs _]].
  split; [exact Hs|]. unfold abort. rewrite Hs. exact Ht.
Qed.

Lemma abort_restores_witness :
  (exists b0, start [] (StartLong Initial [] SERVER_CID) = Done b0 /\
              run_ops b0 [OpToken []; OpPn 1 2] = Done test_abort_builder) /\
  (header test_abort_builder).1 = length (@nil Z) /\
  abort test_abort_builder = [].
Proof.
  split; [eexists; split; vm_compute; reflexivity|].
  refine (abort_restores [] (StartLong Initial [] SERVER_CID)
            [OpToken []; OpPn 1 2] _ test_abort_builder eq_refl _).
  vm_compute. reflexivity.
Defined.

Lemma pn_header b v n b1 :
  pn b v n = Done b1 ->
  (header b1).1 = (header b).1 /\ (header b1).2 = length (encoder b1).
Proof.
  intros H. unfold pn in H. invert_steps.
  destruct (decide (Z.land _ 0x80 = PACKET_BIT_LONG));
    (destruct (decide _); [|discriminate]); invert_steps; cbn;
    rewrite ?length_insert; auto.
Qed.

(** C9 *)
(** C9 (as stated, refuted): a builder just started with [short], with no
    payload added, is reported non-empty, because before [pn] the header
    end is still the header start while the header bytes are written. *)
Lemma is_empty_before_pn_counterexample :
  start [] (StartShort false SERVER_CID) = Done (short [] false SERVER_CID) /\
  run_ops (short [] false SERVER_CID) [] = Done (short [] false SERVER_CID) /\
  is_empty (short [] false SERVER_CID) = false.
Proof. split; [reflexivity|]. split; reflexivity. Qed.

(** C9 (amended): [is_empty] compares the buffer length with the header
    end.  A just-started builder (before [pn]) is never empty; right after
    [pn] the builder is empty, and appending a payload keeps it empty
    exactly when the payload has no byte. *)
Theorem is_empty_after_pn (e : Encoder) (st : Start) (ops : list BuilderOp)
  (b0 b b1 : PacketBuilder) (v : Z) (n : nat) (payload : list Z) :
  start e st = Done b0 ->
  is_empty b0 = false /\
  (run_ops b0 ops = Done b -> pn b v n = Done b1 ->
   is_empty b1 = true /\ (is_empty (append b1 payload) = true <-> payload = [])).
Proof.
  intros H0. pose proof (start_frame _ _ _ H0) as [_ [Hs [Hl [Hh _]]]].
  split.
  - unfold is_empty. apply Nat.eqb_neq.
    destruct st; simpl in H0; [injection H0 as <-; cbn in *; lia|].
    unfold long in H0. invert_steps. cbn in *. lia.
  - intros Hr Hp. destruct (pn_header _ _ _ _ Hp) as [_ He].
    unfold is_empty, append, with_encoder, encode. cbn.
    rewrite He, Nat.eqb_refl. split; [reflexivity|].
    rewrite length_app, Nat.eqb_eq. split.
    + intros Hz. destruct payload; [reflexivity|simpl in Hz; lia].
    + intros ->. simpl. lia.
Qed.

Lemma is_empty_after_pn_witness :
  start [] (StartShort true SERVER_CID) = Done (short [] true SERVER_CID) /\
  run_ops (short [] true SERVER_CID) [] = Done (short [] true SERVER_CID) /\
  pn (short [] true SERVER_CID) 0 1
    = Done (match pn (short [] true SERVER_CID) 0 1 with
            | Done b1 => b1 | Panic => short [] true SERVER_CID end) /\
  (is_empty (short [] true SERVER_CID) = false /\
   (run_ops (short [] true SERVER_CID) [] = Done (short [] true SERVER_CID) ->
    pn (short [] true SERVER_CID) 0 1
      = Done (match pn (short [] true SERVER_CID) 0 1 with
              | Done b1 => b1 | Panic => short [] true SERVER_CID end) ->
    let b1 := match pn (short [] true SERVER_CID) 0 1 with
              | Done b1 => b1 | Panic => short [] true SERVER_CID end in
    is_empty b1 = true /\
    (is_empty (append b1 [0; 0; 0]) = true <-> [0; 0; 0] = @nil Z))).
Proof.
  split; [reflexivity|]. split; [reflexivity|].
  split; [vm_compute; reflexivity|].
  apply (is_empty_after_pn [] (StartShort true SERVER_CID) []
           (short [] true SERVER_CID)). reflexivity.
Defined.

(* ------------------------------------------------------------------ *)
(** ** Failed builds *)

Lemma slice_congr (l l' : list Z) h a c :
  length l = length l' -> drop h l = drop h l' -> (h <= a)%nat ->
  slice l a c = slice l' a c.
Proof.
  intros Hl Hd Ha. unfold slice. rewrite Hl.
  destruct (decide _); [|reflexivity].
  replace a with (h + (a - h))%nat by lia.
  rewrite <- !drop_drop, Hd. reflexivity.
Qed.

Lemma slice_from_congr (l l' : list Z) h a :
  length l = length l' -> drop h l = drop h l' -> (h <= a)%nat ->
  slice_from l a = slice_from l' a.
Proof.
  intros Hl Hd Ha. unfold slice_from. rewrite Hl.
  destruct (decide _); [|reflexivity].
  replace a with (h + (a - h))%nat by lia.
  rewrite <- !drop_drop, Hd. reflexivity.
Qed.

(** Two builders that differ only below the header start. *)
Definition same_from_header (b b' : PacketBuilder) : Prop :=
  header b' = header b /\ offsets b' = offsets b /\ pkt_pn b' = pkt_pn b /\
  length (encoder b') = length (encoder b) /\
  drop (header b).1 (encoder b') = drop (header b).1 (encoder b) /\
  (off_len (offsets b) = 0%nat \/
   ((header b).1 <= off_len (offsets b))%nat).

Lemma write_len_congr b b' x b1 :
  same_from_header b b' -> (0 < off_len (offsets b))%nat ->
  write_len b x = Done b1 ->
  exists b1', write_len b' x = Done b1' /\ same_from_header b1 b1'.
Proof.
  intros [Hh [Ho [Hp [Hl [Hd Hol]]]]] Hpos H.
  unfold write_len in *. rewrite Ho, Hl.
  invert_steps. unfold sub_usize.
  rewrite decide_True by lia. cbn [mbind outcome_bind].
  rewrite set_at_lt by lia. cbn [mbind outcome_bind].
  rewrite set_at_lt by (rewrite length_insert; lia).
  cbn [mbind outcome_bind]. eexists. split; [reflexivity|].
  unfold same_from_header, with_encoder. cbn.
  rewrite !length_insert.
  repeat split; auto.
  rewrite !drop_insert_ge by (destruct Hol; lia). rewrite Hd. reflexivity.
Qed.

Lemma build_prepare_congr (CS : Type) (expansion : CS -> nat) s b b' b1 hdr body :
  same_from_header b b' ->
  build_prepare CS expansion s b = Done (b1, hdr, body) ->
  exists b1', build_prepare CS expansion s b' = Done (b1', hdr, body) /\
              pkt_pn b1' = pkt_pn b1 /\ offsets b1' = offsets b1 /\
              header b1' = header b1.
Proof.
  intros Hs H.
  assert (Hw : exists b2 b2',
            (if decide (0 < off_len (offsets b))%nat
             then write_len b (expansion s) else Done b) = Done b2 /\
            (if decide (0 < off_len (offsets b'))%nat
             then write_len b' (expansion s) else Done b') = Done b2' /\
            same_from_header b2 b2' /\
            slice (encoder b2) (header b2).1 (header b2).2 = Done hdr /\
            slice_from (encoder b2) (header b2).2 = Done body).
  { unfold build_prepare in H. apply bind_Done in H.
    destruct H as [b2 [Hb2 H]]. apply bind_Done in H.
    destruct H as [hdr2 [Hsl H]]. apply bind_Done in H.
    destruct H as [body2 [Hsf H]]. injection H as <- <- <-.
    destruct Hs as [Hh [Ho Hrest]]. rewrite Ho.
    destruct (decide (0 < off_len (offsets b))%nat) as [Hpos|Hpos].
    - destruct (write_len_congr b b' _ _ (conj Hh (conj Ho Hrest)) Hpos Hb2)
        as [b2' [Hb2' Hs2]].
      exists b2, b2'. auto.
    - injection Hb2 as <-. exists b, b'.
      split; [reflexivity|]. split; [reflexivity|].
      split; [exact (conj Hh (conj Ho Hrest))|]. auto. }
  destruct Hw as [b2 [b2' [Hb2 [Hb2' [[Hh [Ho [Hp [Hl [Hd _]]]]] [Hsl Hsf]]]]]].
  assert (Hq : ((header b2).1 <= (header b2).2)%nat).
  { unfold slice in Hsl. case_decide; [lia|discriminate]. }
  unfold build_prepare in H |- *. rewrite Hb2 in H. rewrite Hb2'.
  cbn [mbind outcome_bind] in *. rewrite Hsl, Hsf in H.
  cbn [mbind outcome_bind] in H. injection H as <-.
  rewrite Hh. rewrite (slice_congr _ (encoder b2) (header b2).1) by auto.
  rewrite Hsl. cbn [mbind outcome_bind].
  rewrite (slice_from_congr _ (encoder b2) (header b2).1) by auto.
  rewrite Hsf. cbn [mbind outcome_bind].
  eexists. split; [reflexivity|]. auto.
Qed.

Lemma build_protect_Err (CS Error : Type)
  (compute_mask : CS -> list Z -> CS * res (list Z) Error)
  s1 b1 b1' ct s' err :
  offsets b1' = offsets b1 ->
  build_protect CS Error compute_mask s1 b1 ct = Done (s', Err err) ->
  build_protect CS Error compute_mask s1 b1' ct = Done (s', Err err) /\
  exists sample, compute_mask s1 sample = (s', Err err).
Proof.
  intros Ho H. unfold build_protect in *. rewrite Ho.
  destruct (sub_usize _ _) as [off|]; cbn [mbind outcome_bind] in *;
    [|discriminate].
  destruct (decide _); [|discriminate].
  destruct (slice _ _ _) as [smp|]; cbn [mbind outcome_bind] in *;
    [|discriminate].
  destruct (compute_mask s1 smp) as [s2 [mask|e]] eqn:Hm.
  - apply bind_Done in H. destruct H as [? [_ H]]. discriminate.
  - injection H as <- <-. eauto.
Qed.

(** C10 *)
(** C10: a failed [build] returns only an error value, and that value is
    the provider's own error from [encrypt] or [compute_mask]; it is the
    same for any two builders that differ only in the bytes below the
    header start, so nothing of the buffer, and in particular nothing of
    the earlier coalesced packets, can be recovered from it. *)
Theorem build_error_no_buffer (CS Error : Type) (expansion : CS -> nat)
  (encrypt : CS -> Z -> list Z -> list Z -> CS * res (list Z) Error)
  (compute_mask : CS -> list Z -> CS * res (list Z) Error)
  (s : CS) (b b' : PacketBuilder) (s' : CS) (err : Error) :
  same_from_header b b' ->
  build CS Error expansion encrypt compute_mask s b = Done (s', Err err) ->
  build CS Error expansion encrypt compute_mask s b' = Done (s', Err err) /\
  ((exists hdr body, encrypt s (pkt_pn b) hdr body = (s', Err err)) \/
   (exists hdr body s1 ct sample,
      encrypt s (pkt_pn b) hdr body = (s1, Ok ct) /\
      compute_mask s1 sample = (s', Err err))).
Proof.
  intros Hs H. unfold build in H |- *.
  apply bind_Done in H. destruct H as [[[b1 hdr] body] [Hp H]].
  destruct (build_prepare_Done _ _ _ _ _ _ _ Hp) as [_ [_ [Hn _]]].
  destruct (build_prepare_congr _ _ _ _ _ _ _ _ Hs Hp)
    as [b1' [Hp' [Hn' [Ho' _]]]].
  rewrite Hp'. cbn [mbind outcome_bind]. rewrite Hn'.
  rewrite Hn in H |- *.
  destruct (encrypt s (pkt_pn b) hdr body) as [s1 [ct|e]] eqn:He.
  - destruct (build_protect_Err _ _ _ _ _ b1' _ _ _ Ho' H) as [H' [smp Hm]].
    split; [exact H'|]. right. exists hdr, body, s1, ct, smp. auto.
  - injection H as <- <-. split; [reflexivity|]. left. eauto.
Qed.

Lemma build_error_no_buffer_witness :
  same_from_header test_two_builder test_two_builder_zeroed /\
  build unit unit toy_expansion toy_encrypt_fail toy_mask tt test_two_builder
    = Done (tt, Err tt) /\
  build unit unit toy_expansion toy_encrypt_fail toy_mask tt
    test_two_builder_zeroed = Done (tt, Err tt) /\
  ((exists hdr body,
      toy_encrypt_fail tt (pkt_pn test_two_builder) hdr body = (tt, Err tt)) \/
   (exists hdr body s1 ct sample,
      toy_encrypt_fail tt (pkt_pn test_two_builder) hdr body = (s1, Ok ct) /\
      toy_mask s1 sample = (tt, Err tt))).
Proof.
  assert (Hs : same_from_header test_two_builder test_two_builder_zeroed).
  { unfold same_from_header. vm_compute.
    split; [reflexivity|]. split; [reflexivity|]. split; [reflexivity|].
    split; [reflexivity|]. split; [reflexivity|]. first [left; reflexivity | right; lia]. }
  assert (Hb : build unit unit toy_expansion toy_encrypt_fail toy_mask tt
                 test_two_builder = Done (tt, Err tt))
    by (vm_compute; reflexivity).
  split; [exact Hs|]. split; [exact Hb|].
  exact (build_error_no_buffer unit unit toy_expansion toy_encrypt_fail
           toy_mask tt test_two_builder test_two_builder_zeroed tt tt Hs Hb).
Defined.

(* ================================================================== *)
(** * Further properties of the builder *)

(** ** Inversion of [pn] *)

Lemma pn_Done b v n b1 :
  pn b v n = Done b1 ->
  (0 < n <= 4)%nat /\
  exists x, encoder b !! (header b).1 = Some x /\
    let lng := bool_decide (Z.land x 0x80 = PACKET_BIT_LONG) in
    let e1 := if lng then encoder b ++ [0; 0] else encoder b in
    encoder b1 = <[(header b).1 := Z.lor x (Z.of_nat (n - 1))]> (e1 ++ be_bytes n v) /\
    header b1 = ((header b).1, (length e1 + n)%nat) /\
    off_len (offsets b1) = (if lng then length (encoder b) else off_len (offsets b)) /\
    off_pn (offsets b1) = (length e1, (length e1 + n)%nat) /\
    first_byte_mask (offsets b1) = first_byte_mask (offsets b) /\
    pkt_pn b1 = v.
Proof.
  intros H. unfold pn in H.
  apply bind_Done in H. destruct H as [x [Hx H]]. apply byte_at_Done in Hx.
  assert (Hhs : ((header b).1 < length (encoder b))%nat)
    by (apply lookup_lt_is_Some; eauto).
  assert (Hsm : forall k, (0 < k <= 4)%nat ->
            Z.land (Z.of_nat (k - 1)) 255 = Z.of_nat (k - 1))
    by (intros; apply land_255_small; lia).
  destruct (decide (Z.land x 0x80 = PACKET_BIT_LONG)) as [Hl|Hl];
    (destruct (decide _) as [Hn|Hn]; [|discriminate]);
    apply bind_Done in H; destruct H as [y [Hy H]]; apply byte_at_Done in Hy;
    apply bind_Done in H; destruct H as [e3 [He3 H]];
    apply set_at_Done in He3; destruct He3 as [_ ->];
    injection H as <-;
    (split; [lia|]); exists x; (split; [exact Hx|]); cbv zeta;
    [rewrite bool_decide_true by exact Hl | rewrite bool_decide_false by exact Hl];
    unfold encode_uint, encode in *;
    rewrite <- ?app_assoc in Hy; rewrite lookup_app_l in Hy by lia;
    rewrite ?lookup_app_l in Hy by lia;
    rewrite Hx in Hy; injection Hy as <-;
    rewrite Hsm by lia; cbn;
    rewrite ?length_insert, ?length_app, ?length_be_bytes; cbn;
    rewrite <- ?app_assoc;
    repeat split; auto; lia.
Qed.

(** ** Invariants of an open builder *)

(** The bounds every builder made by [short]/[long] and the builder calls
    keeps: the first header byte exists, the header and packet-number
    ranges lie in the buffer, the packet number has at most 4 bytes, and a
    recorded length field has its two bytes. *)
Definition builder_ok (b : PacketBuilder) : Prop :=
  ((header b).1 < length (encoder b))%nat /\
  ((header b).1 <= (header b).2 <= length (encoder b))%nat /\
  ((off_pn (offsets b)).1 <= (off_pn (offsets b)).2 <= length (encoder b))%nat /\
  (range_len (off_pn (offsets b)) <= 4)%nat /\
  (off_len (offsets b) = 0%nat \/ (off_len (offsets b) + 2 <= length (encoder b))%nat).

(** The type bits [0xb0] of the first header byte. *)
Definition first_bits (b : PacketBuilder) : option Z :=
  Z.land 0xb0 <$> encoder b !! (header b).1.

Lemma lor_small_type_bits x k :
  0 <= k < 4 -> Z.land 0xb0 (Z.lor x k) = Z.land 0xb0 x.
Proof.
  intros Hk. rewrite Z.land_lor_distr_r.
  replace (Z.land 0xb0 k) with 0; [apply Z.lor_0_r|].
  assert (k = 0 \/ k = 1 \/ k = 2 \/ k = 3) as [-> | [-> | [-> | ->]]] by lia;
    reflexivity.
Qed.

Lemma start_ok e st b : start e st = Done b -> builder_ok b.
Proof.
  destruct st as [kp dcid|pt dcid scid]; simpl.
  - intros H; injection H as <-. unfold builder_ok, short, encode, encode_byte, range_len.
    cbn. rewrite !length_app. simpl. lia.
  - unfold long. intros H. invert_steps.
    unfold builder_ok, encode_vec1, encode_uint, encode, encode_byte, range_len. cbn.
    rewrite !length_app. simpl. lia.
Qed.

Lemma encode_vvec_length (e t : list Z) :
  (length e <= length (encode_vvec e t))%nat.
Proof.
  destruct (encode_vvec_app e t) as [k ->]. rewrite length_app. lia.
Qed.

Lemma run_op_ok b op b' :
  builder_ok b -> run_op b op = Done b' ->
  builder_ok b' /\ (header b').1 = (header b).1 /\ first_bits b' = first_bits b.
Proof.
  intros Hb H. destruct Hb as [Hs [Hh [Hp [Hr Ho]]]].
  destruct op as [t|v n|p]; simpl in H.
  - unfold initial_token in H. invert_steps.
    destruct (decide _); [|discriminate]. injection H as <-.
    destruct (encode_vvec_app (encoder b) t) as [k Hk].
    unfold builder_ok, first_bits, with_encoder. cbn. rewrite Hk.
    rewrite lookup_app_l by lia. rewrite length_app. repeat split; auto; lia.
  - destruct (pn_Done _ _ _ _ H) as [Hn [x [Hx Hb1]]]. cbv zeta in Hb1.
    destruct Hb1 as [He [Hh1 [Hol [Hpn [_ _]]]]].
    unfold builder_ok, first_bits, range_len.
    rewrite He, Hh1, Hol, Hpn. cbn.
    unfold first_bits. rewrite Hx. cbn.
    rewrite list_lookup_insert_eq
      by (case_bool_decide; rewrite ?length_app, ?length_be_bytes; cbn; lia).
    cbn. rewrite lor_small_type_bits by lia.
    case_bool_decide; rewrite ?length_insert, ?length_app, ?length_be_bytes; cbn;
      repeat split; auto; lia.
  - injection H as <-. unfold builder_ok, first_bits, append, with_encoder, encode. cbn.
    rewrite lookup_app_l by lia. rewrite length_app. repeat split; auto; lia.
Qed.

Lemma run_ops_ok ops : forall b b',
  builder_ok b -> run_ops b ops = Done b' ->
  builder_ok b' /\ (header b').1 = (header b).1 /\ first_bits b' = first_bits b.
Proof.
  induction ops as [|op ops IH]; simpl; intros b b' Hb H.
  - injection H as <-. auto.
  - apply bind_Done in H. destruct H as [b1 [H1 H2]].
    destruct (run_op_ok _ _ _ Hb H1) as [Hb1 [Hh1 Hf1]].
    destruct (IH _ _ Hb1 H2) as [Hb' [Hh' Hf']].
    split; [exact Hb'|]. split; congruence.
Qed.

Lemma start_first_bits e st b :
  start e st = Done b ->
  match st with
  | StartShort _ _ => first_bits b = Some 0
  | StartLong pt _ _ =>
      exists c, code pt = Done c /\ first_bits b = Some (0x80 + 16 * c)
  end.
Proof.
  destruct st as [kp dcid|pt dcid scid]; simpl.
  - intros H; injection H as <-. unfold first_bits, short, encode, encode_byte. cbn.
    rewrite <- app_assoc, lookup_app_r, Nat.sub_diag by lia. cbn.
    destruct kp; reflexivity.
  - unfold long. intros H. invert_steps.
    unfold first_bits, encode_vec1, encode_uint, encode, encode_byte. cbn.
    rewrite <- !app_assoc, lookup_app_r, Nat.sub_diag by lia. cbn.
    exists x. split; [assumption|].
    destruct pt; cbn in *; try discriminate;
      match goal with Hc : Done _ = Done _ |- _ => injection Hc as <- end;
      reflexivity.
Qed.

(** Whether a packet is started as a long-header Initial packet. *)
Definition starts_initial (st : Start) : bool :=
  match st with StartLong Initial _ _ => true | _ => false end.



(** X2: [initial_token] works only on a packet started as a long-header
    Initial packet, whatever builder calls came in between: there it
    appends the token with a variable-length-integer length prefix; on a
    short header or another long-header type its [debug_assert_eq!] fails. *)
Theorem initial_token_requires_initial (e : Encoder) (st : Start)
  (ops : list BuilderOp) (b0 b : PacketBuilder) (t : list Z) :
  start e st = Done b0 -> run_ops b0 ops = Done b ->
  initial_token b t =
    if starts_initial st then Done (with_encoder b (encode_vvec (encoder b) t))
    else Panic.
Proof.
  intros H0 H.
  pose proof (start_first_bits _ _ _ H0) as Hf0.
  destruct (run_ops_ok _ _ _ (start_ok _ _ _ H0) H) as [[Hs _] [_ Hf]].
  destruct (lookup_lt_is_Some_2 _ _ Hs) as [x Hx].
  unfold initial_token. rewrite (byte_at_Some _ _ _ Hx). cbn [mbind outcome_bind].
  unfold first_bits in Hf. rewrite Hx in Hf. cbn in Hf.
  fold (first_bits b0) in Hf.
  rewrite (Z.land_comm x).
  destruct st as [kp dcid|pt dcid scid]; cbn [starts_initial].
  - rewrite Hf0 in Hf. injection Hf as ->.
    rewrite decide_False by (cbv; discriminate). reflexivity.
  - destruct Hf0 as [c [Hc Hf0]]. rewrite Hf0 in Hf. injection Hf as ->.
    destruct pt; cbn in Hc; try discriminate; injection Hc as <-;
      [rewrite decide_True by reflexivity | rewrite decide_False by (cbv; discriminate)..];
      reflexivity.
Qed.

Lemma initial_token_requires_initial_witness :
  start [] (StartLong Handshake SERVER_CID CLIENT_CID)
    = long [] Handshake SERVER_CID CLIENT_CID /\
  (exists b0, long [] Handshake SERVER_CID CLIENT_CID = Done b0 /\
   run_ops b0 [] = Done b0 /\
   initial_token b0 [1] = Panic).
Proof.
  split; [reflexivity|].
  destruct (long [] Handshake SERVER_CID CLIENT_CID) as [b0|] eqn:Hl;
    [|vm_compute in Hl; discriminate].
  exists b0. split; [reflexivity|]. split; [reflexivity|].
  exact (initial_token_requires_initial [] (StartLong Handshake SERVER_CID CLIENT_CID)
           [] b0 b0 [1] Hl eq_refl).
Defined.

(** X3: on a builder that [short]/[long] and the builder calls can
    produce, [pn v n] fails (its [debug_assert!]) exactly when the length
    is 0 or more than 4; otherwise it always succeeds. *)
Theorem pn_len_panics (b : PacketBuilder) (v : Z) (n : nat) :
  builder_ok b -> (pn b v n = Panic <-> (n = 0 \/ 4 < n)%nat).
Proof.
  intros Hb. split.
  - intros Hp. destruct (decide (n = 0 \/ 4 < n)%nat) as [Hn|Hn]; [exact Hn|].
    exfalso. destruct Hb as [Hs _].
    destruct (lookup_lt_is_Some_2 _ _ Hs) as [x Hx].
    unfold pn in Hp. rewrite (byte_at_Some _ _ _ Hx) in Hp.
    cbn [mbind outcome_bind] in Hp.
    destruct (decide (Z.land x 0x80 = PACKET_BIT_LONG));
      (rewrite decide_True in Hp by lia);
      unfold encode_uint, encode in Hp;
      (rewrite byte_at_Some with (x := x) in Hp
         by (rewrite <- ?app_assoc, lookup_app_l by lia; exact Hx));
      cbn [mbind outcome_bind] in Hp;
      rewrite set_at_lt in Hp by (rewrite !length_app; lia);
      discriminate.
  - intros Hn. destruct (pn b v n) as [b1|] eqn:Hp; [|reflexivity].
    destruct (pn_Done _ _ _ _ Hp) as [Hn' _]. lia.
Qed.

Lemma pn_len_panics_witness :
  builder_ok (short [] true SERVER_CID) /\
  (pn (short [] true SERVER_CID) 0 5 = Panic <-> (5 = 0 \/ 4 < 5)%nat).
Proof.
  assert (Hb : builder_ok (short [] true SERVER_CID))
    by (unfold builder_ok, range_len; cbn; lia).
  split; [exact Hb|]. exact (pn_len_panics _ 0 5 Hb).
Defined.

(** ** When header protection succeeds *)

Lemma mask_pn_short (e mask : list Z) (i j n : nat) :
  (0 < n)%nat -> (length mask < i + n)%nat -> mask_pn e mask i j n = Panic.
Proof.
  revert e i j. induction n as [|n IH]; intros e i j Hn Hm; [lia|].
  cbn [mask_pn].
  destruct (mask !! i) as [m|] eqn:Hmi; [|unfold byte_at; rewrite Hmi; reflexivity].
  assert (Hi : (i < length mask)%nat) by (apply lookup_lt_is_Some; eauto).
  rewrite (byte_at_Some _ _ _ Hmi). cbn [mbind outcome_bind].
  destruct (e !! j) as [x|] eqn:Hx; [|unfold byte_at; rewrite Hx; reflexivity].
  rewrite (byte_at_Some _ _ _ Hx). cbn [mbind outcome_bind].
  rewrite set_at_lt by (apply lookup_lt_is_Some; eauto).
  cbn [mbind outcome_bind]. apply IH; lia.
Qed.

Lemma mask_pn_ok (e mask : list Z) (i j n : nat) :
  (i + n <= length mask)%nat -> (j + n <= length e)%nat ->
  exists e', mask_pn e mask i j n = Done e'.
Proof.
  revert e i j. induction n as [|n IH]; intros e i j Hm He; [eexists; reflexivity|].
  cbn [mask_pn].
  destruct (lookup_lt_is_Some_2 mask i ltac:(lia)) as [m Hmi].
  destruct (lookup_lt_is_Some_2 e j ltac:(lia)) as [x Hx].
  rewrite (byte_at_Some _ _ _ Hmi), (byte_at_Some _ _ _ Hx).
  cbn [mbind outcome_bind]. rewrite set_at_lt by lia.
  cbn [mbind outcome_bind]. apply IH; [lia|]. rewrite length_insert. lia.
Qed.

(** [apply_mask] fails exactly when a byte it reads is missing. *)
Lemma apply_mask_ok (e : list Z) (hs : nat) (fbm : Z) (pnr : nat * nat)
  (mask : list Z) :
  (hs < length e)%nat -> (range_len pnr = 0%nat \/ (pnr.2 <= length e)%nat) ->
  (1 + range_len pnr <= length mask)%nat ->
  exists e2, apply_mask e hs fbm pnr mask = Done e2.
Proof.
  intros Hs Hp Hm. unfold apply_mask, range_len in *.
  destruct (lookup_lt_is_Some_2 mask 0 ltac:(lia)) as [m Hm0].
  destruct (lookup_lt_is_Some_2 e hs Hs) as [x Hx].
  rewrite (byte_at_Some _ _ _ Hm0), (byte_at_Some _ _ _ Hx).
  cbn [mbind outcome_bind]. rewrite set_at_lt by lia.
  cbn [mbind outcome_bind].
  destruct (decide (pnr.2 <= pnr.1)%nat).
  - replace (pnr.2 - pnr.1)%nat with 0%nat by lia. eexists; reflexivity.
  - destruct Hp as [Hp|Hp]; [lia|].
    apply mask_pn_ok; [lia|]. rewrite length_insert. lia.
Qed.

Lemma apply_mask_short (e : list Z) (hs : nat) (fbm : Z) (pnr : nat * nat)
  (mask : list Z) :
  (length mask <= range_len pnr)%nat -> apply_mask e hs fbm pnr mask = Panic.
Proof.
  intros Hm. unfold apply_mask.
  destruct (mask !! 0%nat) as [m0|] eqn:H0.
  - assert (0 < length mask)%nat by (apply lookup_lt_is_Some; eauto).
    rewrite (byte_at_Some _ _ _ H0). cbn [mbind outcome_bind].
    destruct (e !! hs) as [x|] eqn:Hx; [|unfold byte_at; rewrite Hx; reflexivity].
    rewrite (byte_at_Some _ _ _ Hx). cbn [mbind outcome_bind].
    rewrite set_at_lt by (apply lookup_lt_is_Some; eauto).
    cbn [mbind outcome_bind]. apply mask_pn_short; lia.
  - unfold byte_at. rewrite H0. reflexivity.
Qed.

(** [build_prepare] succeeds on every builder with the invariant. *)
Lemma build_prepare_ok (CS : Type) (expansion : CS -> nat) s b :
  builder_ok b -> exists b1 hdr body, build_prepare CS expansion s b = Done (b1, hdr, body).
Proof.
  intros [Hs [Hh [Hp [Hr Ho]]]]. unfold build_prepare.
  assert (Hw : exists b1, (if decide (0 < off_len (offsets b))%nat
                           then write_len b (expansion s) else Done b) = Done b1 /\
                          header b1 = header b /\
                          length (encoder b1) = length (encoder b)).
  { destruct (decide _) as [Hol|Hol]; [|eexists; eauto].
    destruct Ho as [Ho|Ho]; [lia|].
    unfold write_len, sub_usize. rewrite decide_True by lia.
    cbn [mbind outcome_bind]. rewrite set_at_lt by lia.
    cbn [mbind outcome_bind]. rewrite set_at_lt by (rewrite length_insert; lia).
    cbn [mbind outcome_bind]. eexists. split; [reflexivity|].
    cbn. rewrite !length_insert. auto. }
  destruct Hw as [b1 [-> [Hh1 Hl1]]]. cbn [mbind outcome_bind].
  unfold slice, slice_from. rewrite Hh1, Hl1.
  rewrite decide_True by lia. cbn [mbind outcome_bind].
  rewrite decide_True by lia. cbn [mbind outcome_bind].
  eauto.
Qed.

(** X4: once the provider has returned the ciphertext and a mask for the
    sample, [build] panics when the mask has no byte for some packet-number
    byte (fewer than [1 + pn_len] bytes): the mistake is not reported as
    an error. *)
Theorem build_mask_too_short (CS Error : Type) (expansion : CS -> nat)
  (encrypt : CS -> Z -> list Z -> list Z -> CS * res (list Z) Error)
  (compute_mask : CS -> list Z -> CS * res (list Z) Error)
  (s : CS) (b b1 : PacketBuilder) (hdr body : list Z) (s1 : CS) (ct : list Z)
  (s2 : CS) (mask : list Z) :
  build_prepare CS expansion s b = Done (b1, hdr, body) ->
  encrypt s (pkt_pn b) hdr body = (s1, Ok ct) ->
  compute_mask s1 (take 16 (drop (4 - range_len (off_pn (offsets b))) ct))
    = (s2, Ok mask) ->
  (length mask <= range_len (off_pn (offsets b)))%nat ->
  build CS Error expansion encrypt compute_mask s b = Panic.
Proof.
  intros Hp He Hm Hl.
  destruct (build_prepare_Done _ _ _ _ _ _ _ Hp) as [Hh [Ho [Hn _]]].
  unfold build. rewrite Hp. cbn [mbind outcome_bind]. rewrite Hn, He.
  unfold build_protect, sub_usize. rewrite Ho.
  destruct (decide (range_len (off_pn (offsets b)) <= 4)%nat) as [Hr|Hr];
    [|reflexivity].
  cbn [mbind outcome_bind].
  destruct (decide _) as [Hc|Hc]; [|reflexivity].
  unfold slice. rewrite decide_True by lia. cbn [mbind outcome_bind].
  unfold SAMPLE_SIZE in *.
  replace (4 - range_len (off_pn (offsets b)) + 16
           - (4 - range_len (off_pn (offsets b))))%nat with 16%nat by lia.
  rewrite Hm. rewrite apply_mask_short by exact Hl. reflexivity.
Qed.

(** X5: a builder made by [short]/[long] and any successful builder calls
    never makes [build] panic when the provider's ciphertexts have at
    least [4 - pn_len + 16] bytes and its masks at least [1 + pn_len]
    bytes: every other index, slice and subtraction in [build] stays in
    range. *)
Theorem build_never_panics (CS Error : Type) (expansion : CS -> nat)
  (encrypt : CS -> Z -> list Z -> list Z -> CS * res (list Z) Error)
  (compute_mask : CS -> list Z -> CS * res (list Z) Error)
  (e : Encoder) (st : Start) (ops : list BuilderOp) (b0 b : PacketBuilder) (s : CS) :
  start e st = Done b0 -> run_ops b0 ops = Done b ->
  (forall s0 v hdr body s1 ct, encrypt s0 v hdr body = (s1, Ok ct) ->
     (4 - range_len (off_pn (offsets b)) + 16 <= length ct)%nat) ->
  (forall s0 sample s1 mask, compute_mask s0 sample = (s1, Ok mask) ->
     (1 + range_len (off_pn (offsets b)) <= length mask)%nat) ->
  build CS Error expansion encrypt compute_mask s b <> Panic.
Proof.
  intros H0 H Hct Hmk.
  destruct (run_ops_ok _ _ _ (start_ok _ _ _ H0) H) as [Hb _].
  destruct (build_prepare_ok CS expansion s b Hb) as [b1 [hdr [body Hp]]].
  destruct (build_prepare_Done _ _ _ _ _ _ _ Hp) as [Hh [Ho [Hn [Hl _]]]].
  destruct Hb as [Hs [Hhd [Hpn [Hr Hol]]]].
  unfold build. rewrite Hp. cbn [mbind outcome_bind].
  destruct (encrypt s (pkt_pn b1) hdr body) as [s1 [ct|err]] eqn:He;
    [|discriminate].
  specialize (Hct _ _ _ _ _ _ He).
  unfold build_protect, sub_usize. rewrite Ho.
  rewrite decide_True by exact Hr. cbn [mbind outcome_bind].
  unfold SAMPLE_SIZE. rewrite decide_True by exact Hct.
  unfold slice. rewrite decide_True by lia. cbn [mbind outcome_bind].
  destruct (compute_mask s1 _) as [s2 [mask|err]] eqn:Hm; [|discriminate].
  specialize (Hmk _ _ _ _ Hm).
  destruct (apply_mask_ok (encoder b1) (header b1).1 (first_byte_mask (offsets b))
              (off_pn (offsets b)) mask) as [e2 He2];
    [rewrite Hl, Hh; lia | rewrite Hl; lia | exact Hmk |].
  rewrite He2. discriminate.
Qed.


Lemma build_mask_too_short_witness :
  build_prepare unit toy_expansion tt test_short_builder
    = Done (test_short_prepared.1.1, test_short_prepared.1.2, test_short_prepared.2) /\
  toy_encrypt tt (pkt_pn test_short_builder) test_short_prepared.1.2 test_short_prepared.2
    = (tt, Ok (test_short_prepared.2 ++ repeat 0 16)) /\
  toy_mask_short tt (take 16 (drop (4 - range_len (off_pn (offsets test_short_builder)))
                                (test_short_prepared.2 ++ repeat 0 16)))
    = (tt, Ok [0]) /\
  (length [0] <= range_len (off_pn (offsets test_short_builder)))%nat /\
  build unit unit toy_expansion toy_encrypt toy_mask_short tt test_short_builder = Panic.
Proof.
  assert (H1 : build_prepare unit toy_expansion tt test_short_builder
    = Done (test_short_prepared.1.1, test_short_prepared.1.2, test_short_prepared.2))
    by (vm_compute; reflexivity).
  assert (H2 : toy_encrypt tt (pkt_pn test_short_builder) test_short_prepared.1.2
                 test_short_prepared.2 = (tt, Ok (test_short_prepared.2 ++ repeat 0 16)))
    by reflexivity.
  assert (H3 : toy_mask_short tt
                 (take 16 (drop (4 - range_len (off_pn (offsets test_short_builder)))
                             (test_short_prepared.2 ++ repeat 0 16))) = (tt, Ok [0]))
    by reflexivity.
  assert (H4 : (length [0] <= range_len (off_pn (offsets test_short_builder)))%nat)
    by (vm_compute; lia).
  split; [exact H1|]. split; [exact H2|]. split; [exact H3|]. split; [exact H4|].
  exact (build_mask_too_short unit unit toy_expansion toy_encrypt toy_mask_short
           tt test_short_builder _ _ _ tt _ tt [0] H1 H2 H3 H4).
Defined.

Lemma build_never_panics_witness :
  start [] (StartShort true SERVER_CID) = Done (short [] true SERVER_CID) /\
  run_ops (short [] true SERVER_CID) [OpPn 0 1; OpAppend [0; 0; 0]]
    = Done test_short_builder /\
  build unit unit toy_expansion toy_encrypt_pad toy_mask tt test_short_builder <> Panic.
Proof.
  assert (H0 : start [] (StartShort true SERVER_CID) = Done (short [] true SERVER_CID))
    by reflexivity.
  assert (H : run_ops (short [] true SERVER_CID) [OpPn 0 1; OpAppend [0; 0; 0]]
                = Done test_short_builder) by (vm_compute; reflexivity).
  assert (Hr : range_len (off_pn (offsets test_short_builder)) = 1%nat)
    by (vm_compute; reflexivity).
  split; [exact H0|]. split; [exact H|].
  apply (build_never_panics unit unit toy_expansion toy_encrypt_pad toy_mask
           [] (StartShort true SERVER_CID) [OpPn 0 1; OpAppend [0; 0; 0]]
           (short [] true SERVER_CID) test_short_builder tt H0 H).
  - intros s0 v hdr body s1 ct Hc. injection Hc as _ <-.
    rewrite length_app, Hr. cbn [length]. lia.
  - intros s0 smp s1 mask Hc. injection Hc as _ <-. rewrite Hr. cbn. lia.
Defined.


(** ** A packet built without a packet number *)

(** Whether a builder call is [pn]. *)
Definition is_pn (op : BuilderOp) : bool :=
  match op with OpPn _ _ => true | _ => false end.

Lemma run_ops_no_pn ops : forall b b',
  forallb (fun op => negb (is_pn op)) ops = true ->
  run_ops b ops = Done b' ->
  header b' = header b /\ offsets b' = offsets b /\ pkt_pn b' = pkt_pn b.
Proof.
  induction ops as [|op ops IH]; simpl; intros b b' Hn H.
  - injection H as <-. auto.
  - apply andb_prop in Hn. destruct Hn as [Hop Hn].
    apply bind_Done in H. destruct H as [b1 [H1 H2]].
    destruct (IH _ _ Hn H2) as [Hh [Ho Hp]].
    rewrite Hh, Ho, Hp.
    destruct op as [t|v n|p]; cbn in Hop, H1; [|discriminate|].
    + unfold initial_token in H1. invert_steps.
      destruct (decide _); [|discriminate]. injection H1 as <-. auto.
    + injection H1 as <-. auto.
Qed.

(** X7: a builder taken to [build] without any [pn] call (only
    [initial_token] and payload appends) gives the provider an empty header,
    the whole packet, header bytes included, as the body, and
    [u64::MAX] as the packet number; the sample is taken at offset 4 and
    the output is the earlier buffer followed by the ciphertext only. *)
Theorem build_without_pn (CS Error : Type) (expansion : CS -> nat)
  (encrypt : CS -> Z -> list Z -> list Z -> CS * res (list Z) Error)
  (compute_mask : CS -> list Z -> CS * res (list Z) Error)
  (e : Encoder) (st : Start) (ops : list BuilderOp) (b0 b : PacketBuilder) (s : CS) :
  start e st = Done b0 -> run_ops b0 ops = Done b ->
  forallb (fun op => negb (is_pn op)) ops = true ->
  build CS Error expansion encrypt compute_mask s b =
    match encrypt s u64_max [] (drop (length e) (encoder b)) with
    | (s1, Err err) => Done (s1, Err err)
    | (s1, Ok ct) =>
        if decide (20 <= length ct)%nat then
          match compute_mask s1 (take 16 (drop 4 ct)) with
          | (s2, Err err) => Done (s2, Err err)
          | (s2, Ok mask) =>
              if decide (1 <= length mask)%nat then Done (s2, Ok (e ++ ct))
              else Panic
          end
        else Panic
    end.
Proof.
  intros H0 H Hn.
  destruct (start_run_frame _ _ _ _ _ H0 H) as [Ht [_ [Hl _]]].
  destruct (run_ops_no_pn _ _ _ Hn H) as [Hh [Ho Hp]].
  assert (Hs0 : header b0 = (length e, length e) /\
                off_len (offsets b0) = 0%nat /\ off_pn (offsets b0) = (0, 0)%nat /\
                pkt_pn b0 = u64_max).
  { destruct st as [kp dcid|pt dcid scid]; cbn in H0.
    - injection H0 as <-. auto.
    - unfold long in H0. invert_steps. auto. }
  destruct Hs0 as [Hh0 [Hol0 [Hpn0 Hpp0]]].
  rewrite <- Hh in Hh0. rewrite <- Ho in Hol0, Hpn0. rewrite <- Hp in Hpp0.
  unfold build, build_prepare. rewrite Hol0, decide_False by lia.
  cbn [mbind outcome_bind]. unfold slice, slice_from. rewrite Hh0. cbn.
  rewrite decide_True by lia. cbn [mbind outcome_bind].
  rewrite decide_True by lia. cbn [mbind outcome_bind].
  rewrite Nat.sub_diag, take_0, Hpp0.
  destruct (encrypt s u64_max [] (drop (length e) (encoder b))) as [s1 [ct|err]];
    [|reflexivity].
  unfold build_protect, sub_usize. rewrite Hpn0.
  change (range_len (0, 0)%nat) with 0%nat.
  rewrite decide_True by lia. cbn [mbind outcome_bind].
  unfold SAMPLE_SIZE. change (4 - 0 + 16)%nat with 20%nat.
  destruct (decide (20 <= length ct)%nat) as [Hc|Hc]; [|reflexivity].
  unfold slice. rewrite decide_True by lia. cbn [mbind outcome_bind].
  change (20 - (4 - 0))%nat with 16%nat. change (4 - 0)%nat with 4%nat.
  destruct (compute_mask s1 (take 16 (drop 4 ct))) as [s2 [mask|err]]; [|reflexivity].
  rewrite Hh0. cbn. unfold apply_mask.
  destruct (mask !! 0%nat) as [m0|] eqn:Hm0.
  - assert (0 < length mask)%nat by (apply lookup_lt_is_Some; eauto).
    rewrite decide_True by lia.
    rewrite (byte_at_Some _ _ _ Hm0). cbn [mbind outcome_bind].
    destruct (lookup_lt_is_Some_2 (encoder b) (length e) Hl) as [x Hx].
    rewrite (byte_at_Some _ _ _ Hx). cbn [mbind outcome_bind].
    rewrite set_at_lt by exact Hl. cbn.
    unfold encode. rewrite take_insert_ge by lia. rewrite Ht. reflexivity.
  - assert (length mask = 0%nat).
    { destruct mask; [reflexivity|discriminate]. }
    rewrite decide_False by lia. unfold byte_at. rewrite Hm0. reflexivity.
Qed.

Lemma build_without_pn_witness :
  start [] (StartShort true SERVER_CID) = Done (short [] true SERVER_CID) /\
  run_ops (short [] true SERVER_CID) [OpAppend [1; 2; 3; 4]]
    = Done (append (short [] true SERVER_CID) [1; 2; 3; 4]) /\
  forallb (fun op => negb (is_pn op)) [OpAppend [1; 2; 3; 4]] = true /\
  build unit unit toy_expansion toy_encrypt toy_mask tt
    (append (short [] true SERVER_CID) [1; 2; 3; 4])
  = match toy_encrypt tt u64_max []
            (drop (length (@nil Z)) (encoder (append (short [] true SERVER_CID) [1; 2; 3; 4]))) with
    | (s1, Err err) => Done (s1, Err err)
    | (s1, Ok ct) =>
        if decide (20 <= length ct)%nat then
          match toy_mask s1 (take 16 (drop 4 ct)) with
          | (s2, Err err) => Done (s2, Err err)
          | (s2, Ok mask) =>
              if decide (1 <= length mask)%nat then Done (s2, Ok ([] ++ ct))
              else Panic
          end
        else Panic
    end.
Proof.
  assert (H0 : start [] (StartShort true SERVER_CID) = Done (short [] true SERVER_CID))
    by reflexivity.
  assert (H : run_ops (short [] true SERVER_CID) [OpAppend [1; 2; 3; 4]]
                = Done (append (short [] true SERVER_CID) [1; 2; 3; 4]))
    by reflexivity.
  assert (Hn : forallb (fun op => negb (is_pn op)) [OpAppend [1; 2; 3; 4]] = true)
    by reflexivity.
  split; [exact H0|]. split; [exact H|]. split; [exact Hn|].
  exact (build_without_pn unit unit toy_expansion toy_encrypt toy_mask
           [] _ _ _ _ tt H0 H Hn).
Defined.

(** ** The length field *)

Lemma type_bits_long x : Z.land x 0x80 = Z.land (Z.land 0xb0 x) 0x80.
Proof.
  rewrite (Z.land_comm 0xb0 x), <- Z.land_assoc. reflexivity.
Qed.

Lemma run_ops_short_len ops : forall b b',
  builder_ok b -> first_bits b = Some 0 -> off_len (offsets b) = 0%nat ->
  run_ops b ops = Done b' -> off_len (offsets b') = 0%nat.
Proof.
  induction ops as [|op ops IH]; simpl; intros b b' Hb Hf Hol H.
  - injection H as <-. exact Hol.
  - apply bind_Done in H. destruct H as [b1 [H1 H2]].
    destruct (run_op_ok _ _ _ Hb H1) as [Hb1 [_ Hf1]].
    apply (IH b1); [exact Hb1 | congruence | | exact H2].
    destruct op as [t|v n|p]; cbn in H1.
    + unfold initial_token in H1. invert_steps.
      destruct (decide _); [|discriminate]. injection H1 as <-. exact Hol.
    + destruct (pn_Done _ _ _ _ H1) as [_ [x [Hx Hb2]]]. cbv zeta in Hb2.
      destruct Hb2 as [_ [_ [Hol1 _]]]. rewrite Hol1.
      unfold first_bits in Hf. rewrite Hx in Hf. cbn in Hf. injection Hf as Hf.
      rewrite bool_decide_false; [exact Hol|].
      rewrite type_bits_long, Hf. cbv. discriminate.
    + injection H1 as <-. exact Hol.
Qed.

(** X8: a short-header packet never gets a length field: whatever builder
    calls are made, no length offset is recorded, and [build] does not
    depend on the provider's [expansion]. *)
Theorem short_no_length_field (CS Error : Type) (exp1 exp2 : CS -> nat)
  (encrypt : CS -> Z -> list Z -> list Z -> CS * res (list Z) Error)
  (compute_mask : CS -> list Z -> CS * res (list Z) Error)
  (e : Encoder) (kp : bool) (dcid : list Z) (ops : list BuilderOp)
  (b0 b : PacketBuilder) (s : CS) :
  start e (StartShort kp dcid) = Done b0 -> run_ops b0 ops = Done b ->
  off_len (offsets b) = 0%nat /\
  build CS Error exp1 encrypt compute_mask s b =
  build CS Error exp2 encrypt compute_mask s b.
Proof.
  intros H0 H.
  assert (Hol : off_len (offsets b) = 0%nat).
  { apply (run_ops_short_len ops b0 b); auto.
    - exact (start_ok _ _ _ H0).
    - exact (start_first_bits _ _ _ H0).
    - cbn in H0. injection H0 as <-. reflexivity. }
  split; [exact Hol|].
  unfold build, build_prepare. rewrite Hol, decide_False by lia. reflexivity.
Qed.

Lemma short_no_length_field_witness :
  start [] (StartShort true SERVER_CID) = Done (short [] true SERVER_CID) /\
  run_ops (short [] true SERVER_CID) [OpPn 0 1; OpAppend [0; 0; 0]]
    = Done test_short_builder /\
  off_len (offsets test_short_builder) = 0%nat /\
  build unit unit toy_expansion toy_encrypt toy_mask tt test_short_builder =
  build unit unit (fun _ => 0%nat) toy_encrypt toy_mask tt test_short_builder.
Proof.
  assert (H0 : start [] (StartShort true SERVER_CID) = Done (short [] true SERVER_CID))
    by reflexivity.
  assert (H : run_ops (short [] true SERVER_CID) [OpPn 0 1; OpAppend [0; 0; 0]]
                = Done test_short_builder) by (vm_compute; reflexivity).
  split; [exact H0|]. split; [exact H|].
  exact (short_no_length_field unit unit toy_expansion (fun _ => 0%nat)
           toy_encrypt toy_mask [] true SERVER_CID _ _ _ tt H0 H).
Defined.

(** X9: for a long-header packet, after [pn v n] and a payload [p], [build]
    hands the provider exactly [p] as the body, and the length field, which
    sits just before the packet number, holds [n + |p| + expansion]
    encoded as [write_len] does; the header given to the provider runs
    from the first byte to the end of the packet number. *)
Theorem long_length_field (CS : Type) (expansion : CS -> nat)
  (e : Encoder) (pt : PacketType) (dcid scid : list Z) (ops : list BuilderOp)
  (b0 b1 b2 : PacketBuilder) (v : Z) (n : nat) (p : list Z) (s : CS) :
  start e (StartLong pt dcid scid) = Done b0 -> run_ops b0 ops = Done b1 ->
  pn b1 v n = Done b2 ->
  let L := Z.of_nat (n + length p + expansion s) in
  let ol := off_len (offsets b2) in
  (ol + 2 + n = length (encoder b2))%nat /\
  exists b3 hdr,
    build_prepare CS expansion s (append b2 p) = Done (b3, hdr, p) /\
    encoder b3 !! ol = Some (len_bytes L).1 /\
    encoder b3 !! S ol = Some (len_bytes L).2 /\
    hdr = take (length (encoder b2) - (header b2).1) (drop (header b2).1 (encoder b3)).
Proof.
  intros H0 H Hp. cbv zeta.
  pose proof (start_first_bits _ _ _ H0) as Hf0. cbn in Hf0.
  destruct Hf0 as [c [Hc Hf0]].
  destruct (run_ops_ok _ _ _ (start_ok _ _ _ H0) H) as [[Hs _] [_ Hf]].
  rewrite Hf0 in Hf.
  destruct (pn_Done _ _ _ _ Hp) as [Hn [x [Hx Hb2]]]. cbv zeta in Hb2.
  unfold first_bits in Hf. rewrite Hx in Hf. cbn in Hf. injection Hf as Hf.
  assert (Hlong : Z.land x 0x80 = PACKET_BIT_LONG).
  { rewrite type_bits_long, Hf.
    destruct pt; cbn in Hc; try discriminate; injection Hc as <-; reflexivity. }
  rewrite bool_decide_true in Hb2 by exact Hlong.
  destruct Hb2 as [He2 [Hh2 [Hol2 [Hpn2 _]]]].
  set (e1 := encoder b1) in *.
  assert (Hl2 : length (encoder b2) = (length e1 + 2 + n)%nat).
  { rewrite He2, length_insert, !length_app, length_be_bytes. cbn. lia. }
  rewrite Hol2. split; [lia|].
  unfold build_prepare, write_len, sub_usize, append, with_encoder.
  cbn [offsets header encoder pkt_pn].
  rewrite Hol2. rewrite decide_True by lia. cbn [mbind outcome_bind].
  rewrite decide_True by (rewrite length_app; lia).
  cbn [mbind outcome_bind].
  rewrite set_at_lt by (rewrite length_app; lia). cbn [mbind outcome_bind].
  rewrite set_at_lt by (rewrite length_insert, length_app; lia).
  cbn [mbind outcome_bind].
  unfold slice, slice_from. cbn [header encoder]. rewrite Hh2. cbn.
  rewrite !length_insert, length_app.
  unfold encode. rewrite ?length_insert, ?length_app. cbn [length].
  rewrite decide_True by lia. cbn [mbind outcome_bind].
  rewrite decide_True by (rewrite ?length_insert, ?length_app; lia).
  cbn [mbind outcome_bind].
  eexists _, _. split.
  - f_equal. f_equal.
    rewrite !drop_insert_lt by lia.
    replace (length e1 + 2 + n)%nat with (length (encoder b2)) by lia.
    apply drop_app_length.
  - replace (length (encoder b2) + length p - (length e1 + 2))%nat
      with (n + length p)%nat by lia.
    unfold len_bytes. cbn.
    split.
    { rewrite list_lookup_insert_ne by lia.
      apply list_lookup_insert_eq. rewrite length_app; lia. }
    split.
    { replace (S (length e1)) with (length e1 + 1)%nat by lia.
      apply list_lookup_insert_eq. rewrite length_insert, length_app; lia. }
    replace (length e1 + 2 + n - (header b1).1)%nat
      with (length (encoder b2) - (header b1).1)%nat by lia.
    reflexivity.
Qed.

Lemma long_length_field_witness :
  exists b0 b2,
    start [] (StartLong Handshake SERVER_CID CLIENT_CID) = Done b0 /\
    run_ops b0 [] = Done b0 /\ pn b0 0 1 = Done b2 /\
    (let L := Z.of_nat (1 + length [0; 0; 0] + toy_expansion tt) in
     let ol := off_len (offsets b2) in
     (ol + 2 + 1 = length (encoder b2))%nat /\
     exists b3 hdr,
       build_prepare unit toy_expansion tt (append b2 [0; 0; 0])
         = Done (b3, hdr, [0; 0; 0]) /\
       encoder b3 !! ol = Some (len_bytes L).1 /\
       encoder b3 !! S ol = Some (len_bytes L).2 /\
       hdr = take (length (encoder b2) - (header b2).1)
               (drop (header b2).1 (encoder b3))).
Proof.
  pose (b0 := match long [] Handshake SERVER_CID CLIENT_CID with
              | Done b => b | Panic => short [] false [] end).
  pose (b2 := match pn b0 0 1 with Done b => b | Panic => b0 end).
  assert (H0 : start [] (StartLong Handshake SERVER_CID CLIENT_CID) = Done b0)
    by (vm_compute; reflexivity).
  assert (Hp : pn b0 0 1 = Done b2) by (vm_compute; reflexivity).
  exists b0, b2. split; [exact H0|]. split; [reflexivity|]. split; [exact Hp|].
  exact (long_length_field unit toy_expansion [] Handshake SERVER_CID CLIENT_CID []
           b0 b0 b2 0 1 [0; 0; 0] tt H0 eq_refl Hp).
Defined.

(** ** Version Negotiation *)




(** ** Bits header protection leaves alone *)

Lemma masked_bits_kept x m fbm keep :
  Z.land fbm keep = 0 -> Z.land (Z.lxor x (Z.land m fbm)) keep = Z.land x keep.
Proof.
  intros H. apply Z.bits_inj'. intros i Hi.
  rewrite !Z.land_spec, Z.lxor_spec, Z.land_spec.
  assert (Hb : Z.testbit fbm i && Z.testbit keep i = false)
    by (rewrite <- Z.land_spec, H; apply Z.testbit_0_l).
  destruct (Z.testbit fbm i), (Z.testbit keep i), (Z.testbit x i), (Z.testbit m i);
    cbn in *; congruence.
Qed.

Lemma run_ops_len_fbm ops : forall b b',
  builder_ok b ->
  (off_len (offsets b) = 0%nat \/ ((header b).1 < off_len (offsets b))%nat) ->
  run_ops b ops = Done b' ->
  (off_len (offsets b') = 0%nat \/ ((header b').1 < off_len (offsets b'))%nat) /\
  first_byte_mask (offsets b') = first_byte_mask (offsets b).
Proof.
  induction ops as [|op ops IH]; simpl; intros b b' Hb Hol H.
  - injection H as <-. auto.
  - apply bind_Done in H. destruct H as [b1 [H1 H2]].
    destruct (run_op_ok _ _ _ Hb H1) as [Hb1 [Hh1 _]].
    assert (Hs : (off_len (offsets b1) = 0%nat \/
                  ((header b1).1 < off_len (offsets b1))%nat) /\
                 first_byte_mask (offsets b1) = first_byte_mask (offsets b)).
    { rewrite Hh1. destruct op as [t|v n|p]; cbn in H1.
      - unfold initial_token in H1. invert_steps.
        destruct (decide _); [|discriminate]. injection H1 as <-. auto.
      - destruct (pn_Done _ _ _ _ H1) as [_ [x [Hx Hb2]]]. cbv zeta in Hb2.
        destruct Hb2 as [_ [_ [Hol1 [_ [Hf1 _]]]]]. rewrite Hol1, Hf1.
        split; [|reflexivity].
        case_bool_decide; [right; destruct Hb as [Hsb _]; exact Hsb | exact Hol].
      - injection H1 as <-. auto. }
    destruct Hs as [Hol1 Hf1].
    destruct (IH _ _ Hb1 Hol1 H2) as [Ho' Hf']. split; [exact Ho'|]. congruence.
Qed.

(** X11: header protection never changes the header-form and fixed bits
    of a packet's first byte, nor a long header's two type bits: in the
    output of [build], the first byte agrees with the unprotected header
    on the bits [0xe0] (short header) or [0xf0] (long header); only the
    bits below are masked. *)
Theorem header_protection_keeps_form_bits (CS Error : Type) (expansion : CS -> nat)
  (encrypt : CS -> Z -> list Z -> list Z -> CS * res (list Z) Error)
  (compute_mask : CS -> list Z -> CS * res (list Z) Error)
  (e : Encoder) (st : Start) (ops : list BuilderOp) (b0 b : PacketBuilder)
  (s s' : CS) (out : list Z) :
  start e st = Done b0 -> run_ops b0 ops = Done b ->
  ((header b).1 < (header b).2)%nat ->
  build CS Error expansion encrypt compute_mask s b = Done (s', Ok out) ->
  let keep := match st with StartShort _ _ => 0xe0 | StartLong _ _ _ => 0xf0 end in
  exists x y, encoder b !! (header b).1 = Some x /\
    out !! (header b).1 = Some y /\ Z.land y keep = Z.land x keep.
Proof.
  intros H0 H Hhe Hb. cbv zeta.
  destruct (start_run_frame _ _ _ _ _ H0 H) as [_ [Hse [_ [_ [_ Hpn]]]]].
  pose proof (start_ok _ _ _ H0) as Hok0.
  assert (Hs0 : off_len (offsets b0) = 0%nat /\
                first_byte_mask (offsets b0) =
                  match st with StartShort _ _ => 0x1f | StartLong _ _ _ => 0x0f end).
  { destruct st as [kp dcid|pt dcid scid]; cbn in H0.
    - injection H0 as <-. auto.
    - unfold long in H0. invert_steps. auto. }
  destruct Hs0 as [Hol0 Hfb0].
  destruct (run_ops_len_fbm _ _ _ Hok0 (or_introl Hol0) H) as [Hol Hfb].
  assert (Hd : ((header b).1 < (off_pn (offsets b)).1 \/
                (off_pn (offsets b)).2 <= (off_pn (offsets b)).1)%nat) by lia.
  unfold build in Hb. apply bind_Done in Hb. destruct Hb as [[[b1 hdr] body] [Hp Hb]].
  destruct (build_prepare_Done _ _ _ _ _ _ _ Hp)
    as [Hh1 [Ho1 [_ [Hl1 [H01 [Hf1 [Hr1 _]]]]]]].
  destruct (encrypt _ _ _ _) as [s1 [ct|err]]; [|discriminate].
  destruct (build_protect_Ok _ _ _ _ _ _ _ _ Hb)
    as [mask [e2 [_ [_ [_ [Ha ->]]]]]].
  rewrite Hh1, Ho1 in Ha.
  destruct (apply_mask_spec _ _ _ _ _ _ Hd Ha) as [Hl2 [[x [m [Hx [_ Hx2]]]] _]].
  assert (Hxb : encoder b !! (header b).1 = Some x).
  { destruct Hol as [Hol|Hol].
    - rewrite <- H01 by exact Hol. exact Hx.
    - rewrite <- Hf1 by lia. exact Hx. }
  exists x, (Z.lxor x (Z.land m (first_byte_mask (offsets b)))).
  split; [exact Hxb|]. split.
  - rewrite Hh1, lookup_app_l by (rewrite length_take; lia).
    rewrite lookup_take_lt by exact Hhe. exact Hx2.
  - rewrite Hfb, Hfb0. apply masked_bits_kept.
    destruct st; reflexivity.
Qed.

Lemma header_protection_keeps_form_bits_witness :
  start [] (StartShort true SERVER_CID) = Done (short [] true SERVER_CID) /\
  run_ops (short [] true SERVER_CID) [OpPn 0 1; OpAppend [0; 0; 0]]
    = Done test_short_builder /\
  ((header test_short_builder).1 < (header test_short_builder).2)%nat /\
  build unit unit toy_expansion toy_encrypt toy_mask tt test_short_builder
    = Done (tt, Ok test_short_packet) /\
  exists x y, encoder test_short_builder !! (header test_short_builder).1 = Some x /\
    test_short_packet !! (header test_short_builder).1 = Some y /\
    Z.land y 0xe0 = Z.land x 0xe0.
Proof.
  assert (H0 : start [] (StartShort true SERVER_CID) = Done (short [] true SERVER_CID))
    by reflexivity.
  assert (H : run_ops (short [] true SERVER_CID) [OpPn 0 1; OpAppend [0; 0; 0]]
                = Done test_short_builder) by (vm_compute; reflexivity).
  assert (Hh : ((header test_short_builder).1 < (header test_short_builder).2)%nat)
    by (vm_compute; lia).
  assert (Hb : build unit unit toy_expansion toy_encrypt toy_mask tt test_short_builder
                 = Done (tt, Ok test_short_packet)) by (vm_compute; reflexivity).
  split; [exact H0|]. split; [exact H|]. split; [exact Hh|]. split; [exact Hb|].
  exact (header_protection_keeps_form_bits unit unit toy_expansion toy_encrypt toy_mask
           [] (StartShort true SERVER_CID) [OpPn 0 1; OpAppend [0; 0; 0]]
           _ _ tt tt _ H0 H Hh Hb).
Defined.
